(** * The library plugin of eliza-library: LIBRARY_SEARCH and LIBRARY_DOWNLOAD

    A shallow embedding of [src/plugins/libgen/index.ts].

    The two action handlers are asynchronous JavaScript functions that talk to
    the agent runtime, to a language-model extractor, to the network and to a
    callback supplied by the host.  They are embedded as terms of a small
    exception-and-trace monad: running a handler yields its completion
    (normal, or an exception that escapes) together with the ordered list of
    the effects it performed.  The collaborators are parameters of the
    development; every handler calls each of them at most once, so a function
    of the call's arguments describes any behaviour the collaborator can show
    during one invocation. *)

From Stdlib Require Import String Ascii List ZArith Lia Bool.
From Stdlib Require Import DecimalString.
From Stdlib Require DecimalZ DecimalPos.
Import ListNotations.

Open Scope list_scope.
Open Scope string_scope.

(** ** Strings

    A [string] stands for a JavaScript string.  ASCII characters are one
    character on both sides; nothing below looks inside a character outside
    ASCII except the URL encoder, which works on the UTF-8 bytes. *)

Definition dq : string := String "034"%char EmptyString.
Definition nl : string := String "010"%char EmptyString.
Definition bq : string := String "096"%char EmptyString.

(** [Array.prototype.join] on an array of strings. *)
Fixpoint join (sep : string) (parts : list string) : string :=
  match parts with
  | [] => EmptyString
  | [p] => p
  | p :: rest => p ++ sep ++ join sep rest
  end.

(** Number to string, for integers (template literals and [String(n)]). *)
Definition string_of_Z (n : Z) : string :=
  NilZero.string_of_int (Z.to_int n).

Definition string_of_nat (n : nat) : string :=
  string_of_Z (Z.of_nat n).

(** ** JavaScript values

    What [JSON.parse] and the extractor can hand to the handlers.  [JNum]
    carries an integer: the handlers only look at a number to compare it with
    zero or to print it, and the numbers of the service (a match count, an
    HTTP status) are integers far below 2^53, where JavaScript prints plain
    decimal digits. *)

#[local] Set Warnings "-register-all".

Inductive JsValue : Type :=
| JUndefined
| JNull
| JBool (b : bool)
| JNum (n : Z)
| JStr (s : string)
| JArr (items : list JsValue)
| JObj (fields : list (string * JsValue)).

(** A thrown value: an [Error] object with its [name] and [message]. *)
Record JsError : Type := mkError { name : string; message : string }.

Definition JsError_message (e : JsError) : string := message e.

Definition Error (msg : string) : JsError := mkError "Error" msg.
Definition TypeError (msg : string) : JsError := mkError "TypeError" msg.

(** Completion of an expression that performs no effect but may throw. *)
Inductive Result (A : Type) : Type :=
| Ok (a : A)
| Throw (e : JsError).
Arguments Ok {A} a.
Arguments Throw {A} e.

Definition rbind {A B} (r : Result A) (f : A -> Result B) : Result B :=
  match r with
  | Ok a => f a
  | Throw e => Throw e
  end.

Declare Scope result_scope.
Delimit Scope result_scope with result.
Notation "x <-? r ; k" := (rbind r (fun x => k))
  (at level 61, r at next level, right associativity) : result_scope.

(** ToBoolean. *)
Definition truthy (v : JsValue) : bool :=
  match v with
  | JUndefined | JNull => false
  | JBool b => b
  | JNum n => negb (n =? 0)%Z
  | JStr s => negb (s =? EmptyString)
  | JArr _ | JObj _ => true
  end.

Fixpoint lookup (k : string) (fields : list (string * JsValue)) : option JsValue :=
  match fields with
  | [] => None
  | (k', v) :: rest => if k' =? k then Some v else lookup k rest
  end.

(** Property read [v.k].  Own data properties of objects and the [length] of
    arrays and strings are modelled; these are all the properties the
    handlers read, and none of their names is inherited from a prototype.
    Reading a property of [undefined] or [null] throws. *)
Definition get_prop (v : JsValue) (k : string) : Result JsValue :=
  match v with
  | JUndefined =>
      Throw (TypeError ("Cannot read properties of undefined (reading '" ++ k ++ "')"))
  | JNull =>
      Throw (TypeError ("Cannot read properties of null (reading '" ++ k ++ "')"))
  | JArr items =>
      if k =? "length" then Ok (JNum (Z.of_nat (List.length items))) else Ok JUndefined
  | JStr s =>
      if k =? "length" then Ok (JNum (Z.of_nat (String.length s))) else Ok JUndefined
  | JObj fields =>
      match lookup k fields with
      | Some x => Ok x
      | None => Ok JUndefined
      end
  | JBool _ | JNum _ => Ok JUndefined
  end.

(** Optional chaining [v?.k]. *)
Definition opt_get (v : JsValue) (k : string) : Result JsValue :=
  match v with
  | JUndefined | JNull => Ok JUndefined
  | _ => get_prop v k
  end.

(** [v === 0]. *)
Definition is_zero (v : JsValue) : bool :=
  match v with
  | JNum 0 => true
  | _ => false
  end.

(** ToString, as a template literal applies it.  An array prints its elements
    separated by commas, with [null] and [undefined] elements empty.  A plain
    object prints as [[object Object]]; an object that carries an own
    [toString] field (never callable in parsed JSON) cannot be converted. *)
Fixpoint to_string (v : JsValue) : Result string :=
  match v with
  | JUndefined => Ok "undefined"
  | JNull => Ok "null"
  | JBool true => Ok "true"
  | JBool false => Ok "false"
  | JNum n => Ok (string_of_Z n)
  | JStr s => Ok s
  | JArr items =>
      let elems :=
        (fix elems (l : list JsValue) : Result (list string) :=
           match l with
           | [] => Ok []
           | x :: rest =>
               match (match x with
                      | JUndefined | JNull => Ok EmptyString
                      | _ => to_string x
                      end) with
               | Ok s => match elems rest with
                         | Ok ss => Ok (s :: ss)
                         | Throw e => Throw e
                         end
               | Throw e => Throw e
               end
           end) in
      match elems items with
      | Ok ss => Ok (join "," ss)
      | Throw e => Throw e
      end
  | JObj fields =>
      match lookup "toString" fields with
      | Some _ => Throw (TypeError "Cannot convert object to primitive value")
      | None => Ok "[object Object]"
      end
  end.

(** [Array.prototype.map] with a callback that may throw: elements are
    visited from index 0 upwards and the first exception ends the walk. *)
Fixpoint map_from {B} (f : JsValue -> nat -> Result B) (i : nat)
         (l : list JsValue) : Result (list B) :=
  match l with
  | [] => Ok []
  | x :: rest =>
      match f x i with
      | Ok y => match map_from f (S i) rest with
                | Ok ys => Ok (y :: ys)
                | Throw e => Throw e
                end
      | Throw e => Throw e
      end
  end.

Definition Array_map {B} (f : JsValue -> nat -> Result B) (l : list JsValue)
  : Result (list B) :=
  map_from f 0 l.

(** ** The content-hash pattern [/[a-f0-9]{32}/] *)

Definition is_lower_hex (c : ascii) : bool :=
  let n := nat_of_ascii c in
  (((97 <=? n) && (n <=? 102)) || ((48 <=? n) && (n <=? 57)))%nat.

(** [n] characters of the class at the head of [s]: the characters matched. *)
Fixpoint hex_prefix (n : nat) (s : string) : option string :=
  match n with
  | O => Some EmptyString
  | S n' =>
      match s with
      | EmptyString => None
      | String c s' =>
          if is_lower_hex c
          then match hex_prefix n' s' with
               | Some m => Some (String c m)
               | None => None
               end
          else None
      end
  end.

(** The leftmost run of [n] characters of the class: the engine tries each
    start position from the left and stops at the first that matches. *)
Fixpoint find_hex (n : nat) (text : string) : option string :=
  match hex_prefix n text with
  | Some m => Some m
  | None =>
      match text with
      | EmptyString => None
      | String _ rest => find_hex n rest
      end
  end.

(** [text.match(/[a-f0-9]{32}/)?.[0]]: the regular expression has no anchor
    and no flag, so the result is the first match, or [undefined] (here
    [None]) when [match] returns [null]. *)
Definition match_hash (text : string) : option string := find_hex 32 text.

(** ** [URLSearchParams.prototype.toString]

    The application/x-www-form-urlencoded serializer: a space becomes [+],
    ASCII letters, digits and [* - . _] stay, any other byte is written as
    a percent sign and two upper-case hexadecimal digits. *)

Definition hex_digit (n : nat) : ascii :=
  if (n <? 10)%nat then ascii_of_nat (48 + n) else ascii_of_nat (55 + n).

Definition form_safe (c : ascii) : bool :=
  let n := nat_of_ascii c in
  (((48 <=? n) && (n <=? 57)) || ((65 <=? n) && (n <=? 90))
   || ((97 <=? n) && (n <=? 122))
   || (n =? 42) || (n =? 45) || (n =? 46) || (n =? 95))%nat.

Fixpoint form_encode (s : string) : string :=
  match s with
  | EmptyString => EmptyString
  | String c rest =>
      let n := nat_of_ascii c in
      (if (n =? 32)%nat then "+"
       else if form_safe c then String c EmptyString
       else String "%" (String (hex_digit (n / 16))
                          (String (hex_digit (n mod 16)) EmptyString)))
      ++ form_encode rest
  end.

Definition URLSearchParams_toString (params : list (string * string)) : string :=
  join "&" (map (fun kv => form_encode (fst kv) ++ "=" ++ form_encode (snd kv)) params).

(** ** Effects *)

(** [Memory]: the inbound message.  The search action's [validate] reads
    [message.content?.text], so both the content and its text may be absent. *)
Record Content : Type := { text : option string }.
Record Memory : Type := { content : option Content }.

(** The agent state is an object whose fields the handlers never read. *)
Definition AgentState : Type := list (string * JsValue).

Inductive ModelClass : Type := SMALL | MEDIUM | LARGE | EMBEDDING | IMAGE.

Record RequestInit : Type :=
  { method : string; headers : list (string * string) }.

(** What the handlers use of a fetch [Response]: [ok], [status], and the body
    that [text()] resolves to (or the error it rejects with). *)
Record Response : Type :=
  { ok : bool; status : Z; body : Result string }.

(** An argument handed to [elizaLogger]. *)
Inductive LogArg : Type :=
| LStr (s : string)
| LVal (v : JsValue)
| LErr (e : JsError).

(** The observable actions of a handler, in the order they happen. *)
Inductive Event : Type :=
| CallComposeState (message : Memory)
| CallUpdateRecentMessageState (state : AgentState)
| CallGenerateObject (context : string) (modelClass : ModelClass)
| CallFetch (url : string) (init : RequestInit)
| Log (args : list LogArg)
| LogError (args : list LogArg)
| Callback (text : string).

(** A computation: how it completes and what it did on the way. *)
Definition M (A : Type) : Type := (Result A * list Event)%type.

Definition ret {A} (a : A) : M A := (Ok a, []).
Definition throw {A} (e : JsError) : M A := (Throw e, []).
Definition emit (ev : Event) : M unit := (Ok tt, [ev]).
Definition lift {A} (r : Result A) : M A := (r, []).

Definition bind {A B} (m : M A) (f : A -> M B) : M B :=
  match m with
  | (Ok a, t) => match f a with (r, t') => (r, (t ++ t')%list) end
  | (Throw e, t) => (Throw e, t)
  end.

(** [try { m } catch (e) { h e }]. *)
Definition try_catch {A} (m : M A) (h : JsError -> M A) : M A :=
  match m with
  | (Ok a, t) => (Ok a, t)
  | (Throw e, t) => match h e with (r, t') => (r, (t ++ t')%list) end
  end.

Declare Scope js_scope.
Delimit Scope js_scope with js.
Notation "x <- m ;; k" := (bind m (fun x => k))
  (at level 61, m at next level, right associativity) : js_scope.
Notation "m ;; k" := (bind m (fun _ => k))
  (at level 61, right associativity) : js_scope.

Definition completion {A} (m : M A) : Result A := fst m.
Definition trace {A} (m : M A) : list Event := snd m.

(** The texts handed to the callback, the calls of the extractor and the
    network calls found in a trace. *)
Definition callbacks (tr : list Event) : list string :=
  flat_map (fun ev => match ev with Callback t => [t] | _ => [] end) tr.

Definition extractor_calls (tr : list Event) : nat :=
  List.length (filter (fun ev => match ev with CallGenerateObject _ _ => true | _ => false end) tr).

Definition network_calls (tr : list Event) : nat :=
  List.length (filter (fun ev => match ev with CallFetch _ _ => true | _ => false end) tr).

(** ** The plugin *)

Definition RAPID_API_HOST : string := "annas-archive-api.p.rapidapi.com".

Definition SEARCH_TEMPLATE : string :=
  join nl
    [ "Given the query, extract the search term.";
      EmptyString;
      "Example response:";
      bq ++ bq ++ bq ++ "json";
      "{";
      "    " ++ dq ++ "searchTerm" ++ dq ++ ": " ++ dq ++ "superintelligence" ++ dq;
      "}";
      bq ++ bq ++ bq;
      EmptyString;
      "{{query}}";
      EmptyString;
      "Extract ONLY the core search term from the query, removing any conversational elements." ].

Definition DOWNLOAD_TEMPLATE : string :=
  join nl
    [ "Given the recent messages, find the book to download.";
      EmptyString;
      "Example response:";
      bq ++ bq ++ bq ++ "json";
      "{";
      "    " ++ dq ++ "md5" ++ dq ++ ": " ++ dq ++ "8fd5a47e020c1e95c54bffa00cbf5484" ++ dq ++ ",";
      "    " ++ dq ++ "title" ++ dq ++ ": " ++ dq
        ++ "Superintelligence: Paths, Dangers, Strategies" ++ dq ++ ",";
      "    " ++ dq ++ "author" ++ dq ++ ": " ++ dq ++ "Nick Bostrom" ++ dq;
      "}";
      bq ++ bq ++ bq;
      EmptyString;
      "{{recentMessages}}";
      EmptyString;
      "Extract the MD5 hash, title, and author of the requested book from the chat history." ].

(** The two methods of the agent runtime that the handlers call. *)
Record IAgentRuntime : Type :=
  { composeState : Memory -> Result AgentState;
    updateRecentMessageState : AgentState -> Result AgentState }.

(** [{ ...state, query: v }]: the field is overwritten in place when the state
    has one of that name, and added at the end otherwise. *)
Fixpoint set_field (k : string) (v : JsValue) (o : AgentState) : AgentState :=
  match o with
  | [] => [(k, v)]
  | (k', v') :: rest =>
      if k' =? k then (k', v) :: rest else (k', v') :: set_field k v rest
  end.

(** [message.content.text]. *)
Definition message_content_text (message : Memory) : Result JsValue :=
  match content message with
  | None => Throw (TypeError "Cannot read properties of undefined (reading 'text')")
  | Some c =>
      match text c with
      | Some t => Ok (JStr t)
      | None => Ok JUndefined
      end
  end.

(** [message.content.text.match(/[a-f0-9]{32}/)?.[0]]. *)
Definition direct_hash (message : Memory) : Result JsValue :=
  match content message with
  | None => Throw (TypeError "Cannot read properties of undefined (reading 'text')")
  | Some c =>
      match text c with
      | None => Throw (TypeError "Cannot read properties of undefined (reading 'match')")
      | Some t =>
          match match_hash t with
          | Some h => Ok (JStr h)
          | None => Ok JUndefined
          end
      end
  end.

(** The arrow function given to [data.books.map]. *)
Definition format_book (book : JsValue) (index : nat) : Result string :=
  (title <-? rbind (get_prop book "title") to_string ;
   author <-? get_prop book "author" ;
   by_author <-? (if truthy author
                  then a <-? rbind (get_prop book "author") to_string ; Ok (" by " ++ a)
                  else Ok EmptyString) ;
   year <-? get_prop book "year" ;
   in_year <-? (if truthy year
                then y <-? rbind (get_prop book "year") to_string ; Ok (" (" ++ y ++ ")")
                else Ok EmptyString) ;
   format <-? rbind (get_prop book "format") to_string ;
   size <-? rbind (get_prop book "size") to_string ;
   genre <-? get_prop book "genre" ;
   genre' <-? to_string (if truthy genre then genre else JStr "Unknown") ;
   md5 <-? rbind (get_prop book "md5") to_string ;
   Ok (dq ++ title ++ dq ++ by_author ++ in_year ++ nl
       ++ "Format: " ++ format ++ ", Size: " ++ size ++ ", Genre: " ++ genre' ++ nl
       ++ "MD5: " ++ md5))%result.

(** The arrow function given to [links.map]. *)
Definition format_link (link : JsValue) (index : nat) : Result string :=
  (l <-? to_string link ;
   Ok (string_of_nat (index + 1) ++ ". " ++ l))%result.

(** [v.map(f).join(sep)]: only an array has a [map] method.  On anything
    else the call throws a [TypeError]; its text, [complaint], is the
    engine's. *)
Definition map_join (complaint : string) (f : JsValue -> nat -> Result string)
           (sep : string) (v : JsValue) : Result string :=
  match v with
  | JArr items =>
      match Array_map f items with
      | Ok parts => Ok (join sep parts)
      | Throw e => Throw e
      end
  | _ => Throw (TypeError complaint)
  end.

(** [!v || v.length === 0]. *)
Definition absent_or_empty (v : JsValue) : Result bool :=
  if negb (truthy v) then Ok true
  else (len <-? get_prop v "length" ; Ok (is_zero len))%result.

(** What the module finds around it: [process.env.RAPID_API_KEY], read once
    when the module is loaded, the imports of [@elizaos/core] and the
    platform's [fetch] and [JSON].  [JSON.stringify] is only applied to a
    value that [JSON.parse] returned, so it always yields a string.
    [not_a_function] is the text the engine gives the [TypeError] it throws
    when the expression named is called and is no function; the language
    fixes the kind of the error and leaves its text to the engine. *)
Record Environment : Type :=
  { RAPID_API_KEY : option string;
    composeContext : AgentState -> string -> Result string;
    generateObjectDeprecated :
      IAgentRuntime -> string -> ModelClass -> Result JsValue;
    fetch : string -> RequestInit -> Result Response;
    JSON_parse : string -> Result JsValue;
    JSON_stringify : JsValue -> string;
    not_a_function : string -> string }.

Section Plugin.

Variable env : Environment.

(** The key when [!RAPID_API_KEY] is false: set and not the empty string. *)
Definition api_key : option string :=
  match RAPID_API_KEY env with
  | Some k => if k =? EmptyString then None else Some k
  | None => None
  end.

(** The host's [HandlerCallback] returns a promise that the handlers do not
    await: calling it is an effect, and what becomes of the promise does not
    reach the handler. *)
Definition callback (t : string) : M unit := emit (Callback t).
Definition elizaLogger_log (args : list LogArg) : M unit := emit (Log args).
Definition elizaLogger_error (args : list LogArg) : M unit := emit (LogError args).

Definition call_fetch (url : string) (init : RequestInit) : M Response :=
  (emit (CallFetch url init) ;; lift (fetch env url init))%js.

Definition call_generateObject (runtime : IAgentRuntime) (context : string)
           (modelClass : ModelClass) : M JsValue :=
  (emit (CallGenerateObject context modelClass) ;;
   lift (generateObjectDeprecated env runtime context modelClass))%js.

(** The [if (!state) ... else ...] that opens both handlers. *)
Definition refresh_state (runtime : IAgentRuntime) (message : Memory)
           (state : option AgentState) : M AgentState :=
  match state with
  | None =>
      (emit (CallComposeState message) ;; lift (composeState runtime message))%js
  | Some s =>
      (emit (CallUpdateRecentMessageState s) ;;
       lift (updateRecentMessageState runtime s))%js
  end.

Definition request_init (key : string) : RequestInit :=
  {| method := "GET";
     headers := [("x-rapidapi-host", RAPID_API_HOST); ("x-rapidapi-key", key)] |}.

(** [try { v = JSON.parse(responseText) } catch (e) { ... }]. *)
Definition parse_response (responseText : string) : M JsValue :=
  try_catch (lift (JSON_parse env responseText))
    (fun e =>
       (elizaLogger_error [LStr "Failed to parse response:"; LStr responseText] ;;
        throw (Error ("Failed to parse API response: " ++ message e)))%js).

(** [if (!response.ok) { ... throw ... }]. *)
Definition check_ok (response : Response) (parsed : JsValue) : M unit :=
  if negb (ok response) then
    (elizaLogger_error [LStr "API Error Response:"; LVal parsed] ;;
     throw (Error ("API request failed with status "
                   ++ string_of_Z (status response) ++ ": "
                   ++ JSON_stringify env parsed)))%js
  else ret tt.

(** *** LIBRARY_SEARCH *)

Definition LIBRARY_SEARCH_validate (runtime : IAgentRuntime) (message : Memory) : bool :=
  match content message with
  | None => false
  | Some c => match text c with
              | Some t => negb (t =? EmptyString)
              | None => false
              end
  end.

(** What the handler does with the response of the search endpoint: the
    statements that follow [await fetch(...)]. *)
Definition LIBRARY_SEARCH_respond (apiResponse : Response) : M unit :=
  (responseText <- lift (body apiResponse) ;;
   data <- parse_response responseText ;;
   check_ok apiResponse data ;;
   elizaLogger_log [LStr "Search results:"; LVal data] ;;
   books <- lift (get_prop data "books") ;;
   none <- lift (absent_or_empty books) ;;
   if none
   then callback "No results found. Try modifying your search terms or using fewer filters."
   else
     formatted <- lift (map_join (not_a_function env "data.books.map")
                                 format_book (nl ++ nl) books) ;;
     total <- lift (rbind (get_prop data "total") to_string) ;;
     count <- lift (rbind (get_prop books "length") to_string) ;;
     callback ("Found " ++ total ++ " books. Here are the top " ++ count
               ++ " results:" ++ nl ++ nl ++ formatted ++ nl ++ nl
               ++ "To download a book, ask me using its MD5 hash."))%js.

Definition search_url (q : string) : string :=
  "https://" ++ RAPID_API_HOST ++ "/search?"
  ++ URLSearchParams_toString [("q", q); ("limit", "10"); ("sort", "mostRelevant")].

(** The body of the handler's [try]. *)
Definition LIBRARY_SEARCH_try (runtime : IAgentRuntime) (message : Memory)
           (state : option AgentState) : M unit :=
  match api_key with
  | None => callback "Error: RAPID_API_KEY is not configured"
  | Some key =>
      (state' <- refresh_state runtime message state ;;
       query <- lift (message_content_text message) ;;
       searchContext <- lift (composeContext env (set_field "query" query state')
                                             SEARCH_TEMPLATE) ;;
       content <- call_generateObject runtime searchContext LARGE ;;
       searchTerm <- lift (opt_get content "searchTerm") ;;
       if negb (truthy searchTerm)
       then throw (Error "No search term found in response")
       else
         elizaLogger_log [LStr "Searching for:"; LVal searchTerm] ;;
         q <- lift (to_string searchTerm) ;;
         let url := search_url q in
         elizaLogger_log [LStr "Search URL:"; LStr url] ;;
         apiResponse <- call_fetch url (request_init key) ;;
         LIBRARY_SEARCH_respond apiResponse)%js
  end.

Definition LIBRARY_SEARCH_handler (runtime : IAgentRuntime) (message : Memory)
           (state : option AgentState) : M unit :=
  try_catch (LIBRARY_SEARCH_try runtime message state)
    (fun error =>
       (elizaLogger_error [LStr "Library search error:"; LErr error] ;;
        callback ("Sorry, I'm having trouble with the search: "
                  ++ JsError_message error))%js).

(** *** LIBRARY_DOWNLOAD *)

Definition LIBRARY_DOWNLOAD_validate (runtime : IAgentRuntime) (message : Memory) : bool :=
  true.

(** The [else] branch of [if (directHash)]: ask the extractor for the hash,
    and announce the download. *)
Definition extract_md5 (runtime : IAgentRuntime) (state : AgentState) : M JsValue :=
  (downloadContext <- lift (composeContext env state DOWNLOAD_TEMPLATE) ;;
   content <- call_generateObject runtime downloadContext LARGE ;;
   found <- lift (opt_get content "md5") ;;
   if negb (truthy found)
   then throw (Error "Could not find the MD5 hash for the requested book")
   else
     md5 <- lift (get_prop content "md5") ;;
     title <- lift (rbind (get_prop content "title") to_string) ;;
     author <- lift (rbind (get_prop content "author") to_string) ;;
     callback ("Downloading " ++ dq ++ title ++ dq ++ " by " ++ author ++ "...") ;;
     ret md5)%js.

(** What the handler does with the response of the download endpoint. *)
Definition LIBRARY_DOWNLOAD_respond (response : Response) : M unit :=
  (responseText <- lift (body response) ;;
   links <- parse_response responseText ;;
   check_ok response links ;;
   none <- lift (absent_or_empty links) ;;
   if none
   then callback "No download links found for this book."
   else
     formatted <- lift (map_join (not_a_function env "links.map")
                                 format_link nl links) ;;
     callback ("Here are the download links for the book:" ++ nl ++ nl
               ++ formatted))%js.

Definition download_url (md5 : string) : string :=
  "https://" ++ RAPID_API_HOST ++ "/download?md5=" ++ md5.

(** The body of the handler's [try]. *)
Definition LIBRARY_DOWNLOAD_try (runtime : IAgentRuntime) (message : Memory)
           (state : option AgentState) : M unit :=
  match api_key with
  | None => callback "Error: RAPID_API_KEY is not configured"
  | Some key =>
      (state' <- refresh_state runtime message state ;;
       directHash <- lift (direct_hash message) ;;
       md5 <- (if truthy directHash
               then ret directHash
               else extract_md5 runtime state') ;;
       md5' <- lift (to_string md5) ;;
       response <- call_fetch (download_url md5') (request_init key) ;;
       LIBRARY_DOWNLOAD_respond response)%js
  end.

Definition LIBRARY_DOWNLOAD_handler (runtime : IAgentRuntime) (message : Memory)
           (state : option AgentState) : M unit :=
  try_catch (LIBRARY_DOWNLOAD_try runtime message state)
    (fun error =>
       (elizaLogger_error [LStr "Library download error:"; LErr error] ;;
        callback ("Sorry, I'm having trouble getting the download links: "
                  ++ JsError_message error))%js).

End Plugin.

(** ** Vocabulary of the properties *)

Fixpoint all_chars (p : ascii -> bool) (s : string) : bool :=
  match s with
  | EmptyString => true
  | String c rest => p c && all_chars p rest
  end.

Fixpoint has_char (p : ascii -> bool) (s : string) : bool :=
  match s with
  | EmptyString => false
  | String c rest => p c || has_char p rest
  end.

Definition is_upper_hex (c : ascii) : bool :=
  let n := nat_of_ascii c in ((65 <=? n) && (n <=? 70))%nat.

(** [h] is [n] characters long and all of them are lower-case hexadecimal
    digits. *)
Definition lower_hex_run (n : nat) (h : string) : Prop :=
  String.length h = n /\ all_chars is_lower_hex h = true.

(** [h] is the substring of [text] that starts at index [i]. *)
Definition occurs_at (text : string) (i : nat) (h : string) : Prop :=
  exists pre post, text = pre ++ h ++ post /\ String.length pre = i.

(** [text] contains a substring of [n] lower-case hexadecimal digits. *)
Definition contains_hash (n : nat) (text : string) : Prop :=
  exists i h, occurs_at text i h /\ lower_hex_run n h.

(** [h] is the first such substring: no earlier start position has one. *)
Definition first_hash (n : nat) (text : string) (h : string) : Prop :=
  exists i, occurs_at text i h /\ lower_hex_run n h /\
            forall j h', j < i -> lower_hex_run n h' -> ~ occurs_at text j h'.

(** A message that carries the text [t]. *)
Definition text_message (t : string) : Memory :=
  {| content := Some {| text := Some t |} |}.







(** Links numbered from [k] upwards, one per line. *)
Definition numbered (k : nat) (links : list string) : list string :=
  map (fun kl => string_of_nat (fst kl) ++ ". " ++ snd kl)
      (combine (seq k (List.length links)) links).

Definition no_results_text : string :=
  "No results found. Try modifying your search terms or using fewer filters.".

Definition not_configured_text : string :=
  "Error: RAPID_API_KEY is not configured".

(** Collaborators for the worked examples: a runtime that composes an empty
    state, an extractor that returns [extracted], a service that answers
    every request with [response], and a parser that knows one body. *)
Definition example_runtime : IAgentRuntime :=
  {| composeState := fun _ => Ok [];
     updateRecentMessageState := fun s => Ok s |}.

Definition example_env (key : option string) (extracted : JsValue)
           (response : Response) (parsed : Result JsValue) : Environment :=
  {| RAPID_API_KEY := key;
     composeContext := fun _ template => Ok template;
     generateObjectDeprecated := fun _ _ _ => Ok extracted;
     fetch := fun _ _ => Ok response;
     JSON_parse := fun _ => parsed;
     JSON_stringify := fun _ => "{}";
     not_a_function := fun callee => callee ++ " is not a function" |}.

(** The data of the worked examples. *)
Definition example_hash : string := "5b723c172fc4c8a77f476e7016ad3945".

Definition example_download_text : string :=
  "Download book with MD5 5b723c172fc4c8a77f476e7016ad3945".

Definition example_extracted : JsValue :=
  JObj [("searchTerm", JStr "machine learning");
        ("md5", JStr "8fd5a47e020c1e95c54bffa00cbf5484");
        ("title", JStr "Superintelligence: Paths, Dangers, Strategies");
        ("author", JStr "Nick Bostrom")].


Definition example_items : list JsValue :=
  [ JObj [("title", JStr "A"); ("author", JStr "X");
          ("md5", JStr "aaaaaaaaaaaaaaaaaaaaaaaaaaaaaaaa");
          ("size", JStr "1MB"); ("format", JStr "pdf")];
    JObj [("title", JStr "B"); ("md5", JStr "bbbbbbbbbbbbbbbbbbbbbbbbbbbbbbbb");
          ("imgUrl", JStr "http://img/b"); ("size", JStr "2MB");
          ("genre", JStr "science"); ("format", JStr "epub"); ("year", JStr "2014");
          ("sources", JArr [JStr "libgen"]); ("imgFallbackColor", JNull)] ].

Definition example_search_data : JsValue :=
  JObj [("total", JNum 2); ("books", JArr example_items)].

Definition example_links : list string := ["http://a"; "http://b"].

Definition success (txt : string) : Response :=
  {| ok := true; status := 200; body := Ok txt |}.

Definition failure (code : Z) (txt : string) : Response :=
  {| ok := false; status := code; body := Ok txt |}.

Definition example_syntax_error : JsError :=
  mkError "SyntaxError" "Unexpected token < in JSON at position 0".

(** The environments of the worked examples: no key; a service that returns
    two links, two books, no book, or a page that is not JSON with a failure
    status; an extractor that finds no hash. *)
Definition env_unset : Environment :=
  example_env None example_extracted (success "[]") (Ok (JArr [])).

Definition env_links : Environment :=
  example_env (Some "key") example_extracted (success "(two links)")
              (Ok (JArr (map JStr example_links))).

Definition env_books : Environment :=
  example_env (Some "key") example_extracted (success "(two books)")
              (Ok example_search_data).

Definition env_no_books : Environment :=
  example_env (Some "key") example_extracted (success "(no book)")
              (Ok (JObj [("total", JNum 0); ("books", JArr [])])).

Definition env_unparsable : Environment :=
  example_env (Some "key") example_extracted (failure 503 "<html>")
              (Throw example_syntax_error).

Definition env_no_md5 : Environment :=
  example_env (Some "key") (JObj [("title", JStr "Superintelligence")])
              (success "(two links)") (Ok (JArr (map JStr example_links))).

(** ** The plugin object

    [Action] and [Plugin] as the module uses them.  The conversation
    [examples] of an action are documentation for the language model and
    take no part in what the code does; the plugin registers no evaluator
    and no provider. *)

Module Action.
Record t : Type :=
  { name : string;
    description : string;
    similes : list string;
    validate : IAgentRuntime -> Memory -> bool;
    handler : IAgentRuntime -> Memory -> option AgentState -> M unit }.
End Action.

Inductive Evaluator : Type := .
Inductive Provider : Type := .

Module Plugin.
Record t : Type :=
  { name : string;
    description : string;
    actions : list Action.t;
    evaluators : list Evaluator;
    providers : list Provider }.
End Plugin.

Definition LIBRARY_SEARCH (env : Environment) : Action.t :=
  {| Action.name := "LIBRARY_SEARCH";
     Action.description := "Search for books using the exact search term provided";
     Action.similes := ["search"; "find"; "look for"];
     Action.validate := LIBRARY_SEARCH_validate;
     Action.handler := LIBRARY_SEARCH_handler env |}.

Definition LIBRARY_DOWNLOAD (env : Environment) : Action.t :=
  {| Action.name := "LIBRARY_DOWNLOAD";
     Action.description := "Get download links for a book using its MD5 hash";
     Action.similes := ["download"; "get book"; "download book"];
     Action.validate := LIBRARY_DOWNLOAD_validate;
     Action.handler := LIBRARY_DOWNLOAD_handler env |}.

Definition libraryPlugin (env : Environment) : Plugin.t :=
  {| Plugin.name := "library";
     Plugin.description := "Search for books and academic papers";
     Plugin.actions := [LIBRARY_SEARCH env; LIBRARY_DOWNLOAD env];
     Plugin.evaluators := [];
     Plugin.providers := [] |}.

(** The characters a serialized parameter is made of: the ones the
    serializer leaves alone, [+] and [%]. *)
Definition form_char (c : ascii) : bool :=
  (form_safe c || (nat_of_ascii c =? 43) || (nat_of_ascii c =? 37))%nat.

(** Lines put one under the other: a line break between two lines, none
    after the last. *)
Fixpoint lines_text (lines : list string) : string :=
  match lines with
  | [] => EmptyString
  | line :: rest =>
      match rest with
      | [] => line
      | _ :: _ => line ++ nl ++ lines_text rest
      end
  end.

(** The integer a decimal numeral stands for, when the string is one. *)
Definition read_number (s : string) : option Z :=
  option_map Z.of_int (NilZero.int_of_string s).

(** More environments for the worked examples: an empty key; a service that
    answers with a failure status and a JSON body, with an empty list, with a
    book list holding [null], or with an error object and a success status; a
    network that is down; a runtime whose state store fails. *)
Definition env_empty_key : Environment :=
  example_env (Some EmptyString) example_extracted (success "[]") (Ok (JArr [])).

Definition env_rate_limited : Environment :=
  example_env (Some "key") example_extracted (failure 429 "{}") (Ok (JObj [])).

Definition env_no_links : Environment :=
  example_env (Some "key") example_extracted (success "[]") (Ok (JArr [])).

Definition env_null_book : Environment :=
  example_env (Some "key") example_extracted (success "(a null book)")
              (Ok (JObj [("total", JNum 1); ("books", JArr [JNull])])).

Definition env_error_object : Environment :=
  example_env (Some "key") example_extracted (success "(an error object)")
              (Ok (JObj [("message", JStr "Too many requests")])).

Definition env_offline : Environment :=
  {| RAPID_API_KEY := Some "key";
     composeContext := fun _ template => Ok template;
     generateObjectDeprecated := fun _ _ _ => Ok example_extracted;
     fetch := fun _ _ => Throw (TypeError "fetch failed");
     JSON_parse := fun _ => Throw example_syntax_error;
     JSON_stringify := fun _ => "{}";
     not_a_function := fun callee => callee ++ " is not a function" |}.

Definition failing_runtime : IAgentRuntime :=
  {| composeState := fun _ => Throw (Error "database is locked");
     updateRecentMessageState := fun _ => Throw (Error "database is locked") |}.

Definition empty_message : Memory := {| content := None |}.

(** * Properties *)

(** ** The content-hash pattern *)

Lemma append_nil_r (s : string) : s ++ EmptyString = s.
Proof. induction s as [|c s IH]; simpl; [reflexivity | now rewrite IH]. Qed.

Lemma append_assoc' (a b c : string) : (a ++ b) ++ c = a ++ b ++ c.
Proof. induction a as [|x a IH]; simpl; [reflexivity | now rewrite IH]. Qed.

Lemma string_length_app (a b : string) :
  String.length (a ++ b) = String.length a + String.length b.
Proof. induction a as [|x a IH]; simpl; [reflexivity | now rewrite IH]. Qed.

Lemma same_length_prefix (a a' b b' : string) :
  a ++ b = a' ++ b' -> String.length a = String.length a' -> a = a'.
Proof.
  revert a'. induction a as [|x a IH]; intros [|x' a'] Heq Hlen;
    simpl in *; try discriminate; [reflexivity|].
  injection Heq as -> Heq. f_equal. apply IH; [assumption | lia].
Qed.

Lemma all_chars_app (p : ascii -> bool) (a b : string) :
  all_chars p (a ++ b) = all_chars p a && all_chars p b.
Proof.
  induction a as [|x a IH]; simpl; [reflexivity|].
  now rewrite IH, andb_assoc.
Qed.

Lemma upper_not_lower (c : ascii) : is_upper_hex c = true -> is_lower_hex c = false.
Proof.
  unfold is_upper_hex, is_lower_hex. cbv zeta.
  generalize (nat_of_ascii c). intros n H.
  apply andb_true_iff in H. destruct H as [H1 H2].
  apply Nat.leb_le in H1. apply Nat.leb_le in H2.
  apply orb_false_iff. split; apply andb_false_iff.
  - left. apply Nat.leb_gt. lia.
  - right. apply Nat.leb_gt. lia.
Qed.

Lemma has_upper_not_all_lower (h : string) :
  has_char is_upper_hex h = true -> all_chars is_lower_hex h = false.
Proof.
  induction h as [|c h IH]; simpl; [discriminate|].
  intros H. apply orb_true_iff in H. destruct H as [H|H].
  - now rewrite (upper_not_lower _ H).
  - rewrite (IH H). apply andb_false_r.
Qed.

Lemma occurs_at_0 (text h : string) :
  occurs_at text 0 h <-> exists post, text = h ++ post.
Proof.
  split.
  - intros ([|c pre] & post & -> & Hlen); [|discriminate]. now exists post.
  - intros [post ->]. now exists EmptyString, post.
Qed.

Lemma occurs_at_S (c : ascii) (text : string) (i : nat) (h : string) :
  occurs_at (String c text) (S i) h <-> occurs_at text i h.
Proof.
  split.
  - intros ([|c' pre] & post & Heq & Hlen); [discriminate|].
    simpl in *. injection Heq as -> ->. exists pre, post. split; [reflexivity | lia].
  - intros (pre & post & -> & Hlen). exists (String c pre), post.
    split; [reflexivity | simpl; lia].
Qed.

Lemma hex_prefix_Some (n : nat) (s m : string) :
  hex_prefix n s = Some m <-> lower_hex_run n m /\ occurs_at s 0 m.
Proof.
  rewrite occurs_at_0. unfold lower_hex_run. revert s m.
  induction n as [|n IH]; intros s m; simpl.
  - split.
    + intros [= <-]. repeat split. now exists s.
    + intros [[Hlen _] _]. destruct m; [reflexivity | discriminate].
  - destruct s as [|c s].
    + split; [discriminate|]. intros [[Hlen _] [post Heq]].
      destruct m; discriminate.
    + destruct (is_lower_hex c) eqn:Hc.
      * destruct (hex_prefix n s) as [m'|] eqn:Hp.
        -- apply IH in Hp. destruct Hp as [[Hlen Hall] [post ->]]. split.
           ++ intros [= <-]. simpl. rewrite Hc, Hall, Hlen. repeat split. now exists post.
           ++ intros [[Hlen' Hall'] [post' Heq]]. destruct m as [|c' m]; [discriminate|].
              simpl in *. injection Heq as <- Heq. f_equal. f_equal.
              apply (same_length_prefix _ _ _ _ Heq). lia.
        -- split; [discriminate|]. intros [[Hlen' Hall'] [post' Heq]].
           destruct m as [|c' m]; [discriminate|].
           simpl in *. injection Heq as <- ->.
           apply andb_true_iff in Hall'. destruct Hall' as [_ Hall'].
           assert (hex_prefix n (m ++ post') = Some m) as Hm.
           { apply IH. repeat split; [lia | assumption | now exists post']. }
           congruence.
      * split; [discriminate|]. intros [[Hlen' Hall'] [post' Heq]].
        destruct m as [|c' m]; [discriminate|].
        simpl in *. injection Heq as <- ->. rewrite Hc in Hall'. discriminate.
Qed.

Lemma hex_prefix_None (n : nat) (s : string) :
  hex_prefix n s = None <-> forall m, lower_hex_run n m -> ~ occurs_at s 0 m.
Proof.
  split.
  - intros Hn m Hrun Hocc.
    assert (hex_prefix n s = Some m) by (apply hex_prefix_Some; auto). congruence.
  - intros H. destruct (hex_prefix n s) as [m|] eqn:Hp; [|reflexivity].
    apply hex_prefix_Some in Hp. destruct Hp as [Hrun Hocc]. destruct (H m Hrun Hocc).
Qed.

Lemma find_hex_unfold (n : nat) (text : string) :
  find_hex n text =
  match hex_prefix n text with
  | Some m => Some m
  | None => match text with
            | EmptyString => None
            | String _ rest => find_hex n rest
            end
  end.
Proof. destruct text; reflexivity. Qed.

(** The pattern finds exactly the first run of [n] lower-case hexadecimal
    digits of the text. *)
Lemma find_hex_Some (n : nat) (text h : string) :
  find_hex n text = Some h <-> first_hash n text h.
Proof.
  unfold first_hash. revert h. induction text as [|c text IH]; intros h.
  - rewrite find_hex_unfold. destruct (hex_prefix n EmptyString) as [m|] eqn:Hp.
    + apply hex_prefix_Some in Hp. destruct Hp as [Hrun Hocc]. split.
      * intros [= <-]. exists 0. repeat split; try apply Hrun; [assumption|]. intros; lia.
      * intros (i & (pre & post & Heq & Hlen) & Hrun' & _).
        destruct pre; [|discriminate]. destruct h; [|discriminate].
        apply occurs_at_0 in Hocc. destruct Hocc as [post' Heq'].
        destruct m; [reflexivity | discriminate].
    + split; [discriminate|]. intros (i & Hocc & Hrun & _).
      destruct Hocc as (pre & post & Heq & Hlen).
      destruct pre; [|discriminate]. simpl in Hlen. subst i.
      exfalso. apply (proj1 (hex_prefix_None _ _) Hp h Hrun).
      now exists EmptyString, post.
  - rewrite find_hex_unfold. destruct (hex_prefix n (String c text)) as [m|] eqn:Hp.
    + pose proof Hp as Hp'. apply hex_prefix_Some in Hp'. destruct Hp' as [Hrun Hocc]. split.
      * intros [= <-]. exists 0. repeat split; try apply Hrun; [assumption|]. intros; lia.
      * intros ([|i] & Hocc' & Hrun' & Hmin).
        -- assert (hex_prefix n (String c text) = Some h) by (apply hex_prefix_Some; auto).
           congruence.
        -- exfalso. apply (Hmin 0 m); [lia | assumption | assumption].
    + rewrite IH. split.
      * intros (i & Hocc & Hrun & Hmin). exists (S i). split; [|split].
        -- now apply occurs_at_S.
        -- assumption.
        -- intros [|j] h' Hj Hrun' Hocc'.
           ++ apply (proj1 (hex_prefix_None _ _) Hp h' Hrun' Hocc').
           ++ apply occurs_at_S in Hocc'. apply (Hmin j h'); [lia | assumption | assumption].
      * intros ([|i] & Hocc & Hrun & Hmin).
        -- exfalso. apply (proj1 (hex_prefix_None _ _) Hp h Hrun Hocc).
        -- exists i. split; [|split].
           ++ now apply occurs_at_S in Hocc.
           ++ assumption.
           ++ intros j h' Hj Hrun' Hocc'. apply (Hmin (S j) h'); [lia | assumption|].
              now apply occurs_at_S.
Qed.

Lemma find_hex_None (n : nat) (text : string) :
  find_hex n text = None <-> ~ contains_hash n text.
Proof.
  unfold contains_hash. induction text as [|c text IH].
  - rewrite find_hex_unfold. destruct (hex_prefix n EmptyString) as [m|] eqn:Hp.
    + apply hex_prefix_Some in Hp. split; [discriminate|].
      intros H. exfalso. apply H. exists 0, m. tauto.
    + split; [|reflexivity]. intros _ (i & h & Hocc & Hrun).
      destruct Hocc as (pre & post & Heq & Hlen).
      destruct pre; [|discriminate]. simpl in Hlen. subst i.
      apply (proj1 (hex_prefix_None _ _) Hp h Hrun). now exists EmptyString, post.
  - rewrite find_hex_unfold. destruct (hex_prefix n (String c text)) as [m|] eqn:Hp.
    + apply hex_prefix_Some in Hp. split; [discriminate|].
      intros H. exfalso. apply H. exists 0, m. tauto.
    + rewrite IH. split.
      * intros H ([|i] & h & Hocc & Hrun).
        -- apply (proj1 (hex_prefix_None _ _) Hp h Hrun Hocc).
        -- apply H. exists i, h. split; [now apply occurs_at_S in Hocc | assumption].
      * intros H (i & h & Hocc & Hrun). apply H. exists (S i), h.
        split; [now apply occurs_at_S | assumption].
Qed.

Lemma find_hex_contains (n : nat) (text : string) :
  contains_hash n text -> exists h, find_hex n text = Some h.
Proof.
  intros H. destruct (find_hex n text) as [h|] eqn:Hf; [now exists h|].
  apply find_hex_None in Hf. contradiction.
Qed.

(** ** Traces *)

Lemma callbacks_app (a b : list Event) :
  callbacks (a ++ b) = (callbacks a ++ callbacks b)%list.
Proof. unfold callbacks. apply flat_map_app. Qed.

Lemma network_calls_app (a b : list Event) :
  network_calls (a ++ b) = network_calls a + network_calls b.
Proof. unfold network_calls. now rewrite filter_app, List.length_app. Qed.

Lemma extractor_calls_app (a b : list Event) :
  extractor_calls (a ++ b) = extractor_calls a + extractor_calls b.
Proof. unfold extractor_calls. now rewrite filter_app, List.length_app. Qed.

Lemma network_calls_In (tr : list Event) (url : string) (init : RequestInit) :
  In (CallFetch url init) tr -> network_calls tr <> 0.
Proof.
  unfold network_calls. induction tr as [|ev tr IH]; simpl; [tauto|].
  intros [->|H]; simpl; [discriminate|].
  destruct ev; simpl; auto.
Qed.

Lemma extractor_calls_In (tr : list Event) (ctx : string) (mc : ModelClass) :
  In (CallGenerateObject ctx mc) tr -> extractor_calls tr <> 0.
Proof.
  unfold extractor_calls. induction tr as [|ev tr IH]; simpl; [tauto|].
  intros [->|H]; simpl; [discriminate|].
  destruct ev; simpl; auto.
Qed.

(** ** The monad *)

Lemma bind_lift_Ok {A B} (r : Result A) (a : A) (f : A -> M B) :
  r = Ok a -> bind (lift r) f = f a.
Proof. intros ->. unfold bind, lift. now destruct (f a). Qed.

Lemma bind_lift_Throw {A B} (r : Result A) (e : JsError) (f : A -> M B) :
  r = Throw e -> bind (lift r) f = (Throw e, []).
Proof. now intros ->. Qed.

Lemma bind_emit {B} (ev : Event) (f : unit -> M B) :
  bind (emit ev) f = (completion (f tt), ev :: trace (f tt)).
Proof. unfold bind, emit, completion, trace. now destruct (f tt). Qed.

Lemma try_catch_run {A} (m : M A) (h : JsError -> M A) :
  try_catch m h =
  match completion m with
  | Ok a => m
  | Throw e => (completion (h e), (trace m ++ trace (h e))%list)
  end.
Proof.
  unfold try_catch, completion, trace. destruct m as [[a|e] t]; simpl; [reflexivity|].
  now destruct (h e).
Qed.

(** Case analysis on the next value the computation in the goal waits for. *)
Ltac next_case :=
  match goal with
  | |- context [match ?x with _ => _ end] =>
      lazymatch x with
      | context [match _ with _ => _ end] => fail
      | _ => destruct x eqn:?
      end
  end.

Ltac run := cbn; repeat (next_case; cbn).

(** A value the run already knows decides the case. *)
Ltac known_case :=
  match goal with
  | H : ?x = _ |- context [match ?s with _ => _ end] =>
      lazymatch s with
      | context [x] => rewrite H
      end
  end.

Ltac run_known := cbn; repeat (first [known_case | next_case]; cbn).

(** ** After the network call *)

Section Responses.

Variable env : Environment.

Lemma search_respond_quiet (resp : Response) :
  network_calls (trace (LIBRARY_SEARCH_respond env resp)) = 0 /\
  extractor_calls (trace (LIBRARY_SEARCH_respond env resp)) = 0.
Proof.
  unfold LIBRARY_SEARCH_respond, parse_response, check_ok, trace.
  run. all: split; reflexivity.
Qed.

Lemma download_respond_quiet (resp : Response) :
  network_calls (trace (LIBRARY_DOWNLOAD_respond env resp)) = 0 /\
  extractor_calls (trace (LIBRARY_DOWNLOAD_respond env resp)) = 0.
Proof.
  unfold LIBRARY_DOWNLOAD_respond, parse_response, check_ok, trace.
  run. all: split; reflexivity.
Qed.

(** A body that is not JSON: the raw body is logged and the parse error is
    thrown, whatever the status of the response. *)
Lemma search_respond_unparsable (resp : Response) (txt : string) (e : JsError) :
  body resp = Ok txt -> JSON_parse env txt = Throw e ->
  LIBRARY_SEARCH_respond env resp =
  (Throw (Error ("Failed to parse API response: " ++ message e)),
   [LogError [LStr "Failed to parse response:"; LStr txt]]).
Proof.
  intros Hb Hp. unfold LIBRARY_SEARCH_respond, parse_response.
  rewrite Hb. cbn. rewrite Hp. reflexivity.
Qed.

Lemma download_respond_unparsable (resp : Response) (txt : string) (e : JsError) :
  body resp = Ok txt -> JSON_parse env txt = Throw e ->
  LIBRARY_DOWNLOAD_respond env resp =
  (Throw (Error ("Failed to parse API response: " ++ message e)),
   [LogError [LStr "Failed to parse response:"; LStr txt]]).
Proof.
  intros Hb Hp. unfold LIBRARY_DOWNLOAD_respond, parse_response.
  rewrite Hb. cbn. rewrite Hp. reflexivity.
Qed.

(** A body that parses, with a status outside the success range. *)
Lemma search_respond_api_error (resp : Response) (txt : string) (data : JsValue) :
  body resp = Ok txt -> JSON_parse env txt = Ok data -> ok resp = false ->
  LIBRARY_SEARCH_respond env resp =
  (Throw (Error ("API request failed with status " ++ string_of_Z (status resp)
                 ++ ": " ++ JSON_stringify env data)),
   [LogError [LStr "API Error Response:"; LVal data]]).
Proof.
  intros Hb Hp Hok. unfold LIBRARY_SEARCH_respond, parse_response, check_ok.
  rewrite Hb. cbn. rewrite Hp. cbn. rewrite Hok. reflexivity.
Qed.

Lemma download_respond_api_error (resp : Response) (txt : string) (data : JsValue) :
  body resp = Ok txt -> JSON_parse env txt = Ok data -> ok resp = false ->
  LIBRARY_DOWNLOAD_respond env resp =
  (Throw (Error ("API request failed with status " ++ string_of_Z (status resp)
                 ++ ": " ++ JSON_stringify env data)),
   [LogError [LStr "API Error Response:"; LVal data]]).
Proof.
  intros Hb Hp Hok. unfold LIBRARY_DOWNLOAD_respond, parse_response, check_ok.
  rewrite Hb. cbn. rewrite Hp. cbn. rewrite Hok. reflexivity.
Qed.

End Responses.

(** ** Rendering *)





Lemma map_from_links (links : list string) (i : nat) :
  map_from format_link i (map JStr links) = Ok (numbered (i + 1) links).
Proof.
  unfold numbered. revert i. induction links as [|l links IH]; intros i; simpl.
  - reflexivity.
  - rewrite (IH (S i)). now replace (S i + 1) with (S (i + 1)) by lia.
Qed.

Lemma numbered_length (k : nat) (links : list string) :
  List.length (numbered k links) = List.length links.
Proof.
  unfold numbered. now rewrite length_map, length_combine, length_seq, Nat.min_id.
Qed.

(** Line [i] of the list numbered from [k] is link [i] with the number
    [k + i]. *)
Lemma numbered_nth (links : list string) (k i : nat) (link : string) :
  nth_error links i = Some link ->
  nth_error (numbered k links) i = Some (string_of_nat (k + i) ++ ". " ++ link).
Proof.
  unfold numbered. revert k i. induction links as [|l links IH]; intros k [|i] H;
    simpl in *; try discriminate.
  - injection H as ->. now rewrite Nat.add_0_r.
  - rewrite (IH (S k) i H). now replace (S k + i) with (k + S i) by lia.
Qed.


Lemma map_join_links (what sep : string) (links : list string) :
  map_join what format_link sep (JArr (map JStr links)) = Ok (join sep (numbered 1 links)).
Proof.
  unfold map_join, Array_map. now rewrite (map_from_links links 0).
Qed.

Lemma absent_or_empty_items (items : list JsValue) :
  items <> [] -> absent_or_empty (JArr items) = Ok false.
Proof. destruct items; [contradiction | reflexivity]. Qed.


Lemma bind_ret {A B} (a : A) (f : A -> M B) : bind (ret a) f = f a.
Proof. unfold bind, ret. now destruct (f a). Qed.

Section Rendering.

Variable env : Environment.

Lemma parse_response_Ok (txt : string) (v : JsValue) :
  JSON_parse env txt = Ok v -> parse_response env txt = ret v.
Proof. intros H. unfold parse_response. now rewrite H. Qed.

Lemma check_ok_true (resp : Response) (v : JsValue) :
  ok resp = true -> check_ok env resp v = ret tt.
Proof. intros H. unfold check_ok. now rewrite H. Qed.


(** A successful search response without books. *)
Lemma search_respond_none (resp : Response) (txt : string) (data books : JsValue) :
  body resp = Ok txt -> JSON_parse env txt = Ok data -> ok resp = true ->
  get_prop data "books" = Ok books ->
  absent_or_empty books = Ok true ->
  LIBRARY_SEARCH_respond env resp =
  (Ok tt, [Log [LStr "Search results:"; LVal data]; Callback no_results_text]).
Proof.
  intros Hb Hp Hok Hbooks Hnone.
  unfold LIBRARY_SEARCH_respond.
  rewrite (bind_lift_Ok _ _ _ Hb), (parse_response_Ok _ _ Hp), bind_ret.
  rewrite (check_ok_true _ _ Hok), bind_ret.
  unfold elizaLogger_log. rewrite bind_emit.
  rewrite (bind_lift_Ok _ _ _ Hbooks), (bind_lift_Ok _ _ _ Hnone).
  reflexivity.
Qed.

(** A successful download response with at least one link. *)
Lemma download_respond_links (resp : Response) (txt : string) (links : list string) :
  body resp = Ok txt -> JSON_parse env txt = Ok (JArr (map JStr links)) ->
  ok resp = true -> links <> [] ->
  LIBRARY_DOWNLOAD_respond env resp =
  (Ok tt, [Callback ("Here are the download links for the book:" ++ nl ++ nl
                     ++ join nl (numbered 1 links))]).
Proof.
  intros Hb Hp Hok Hne.
  unfold LIBRARY_DOWNLOAD_respond.
  rewrite (bind_lift_Ok _ _ _ Hb), (parse_response_Ok _ _ Hp), bind_ret.
  rewrite (check_ok_true _ _ Hok), bind_ret.
  assert (map JStr links <> []) as Hne' by (destruct links; [contradiction | discriminate]).
  rewrite (bind_lift_Ok _ _ _ (absent_or_empty_items _ Hne')).
  rewrite (bind_lift_Ok _ _ _ (map_join_links _ _ _)).
  reflexivity.
Qed.

End Rendering.

(** ** Up to the network call *)

Arguments LIBRARY_SEARCH_respond : simpl never.
Arguments LIBRARY_DOWNLOAD_respond : simpl never.
Arguments opt_get : simpl never.
Arguments get_prop : simpl never.
Arguments truthy : simpl never.
Arguments to_string : simpl never.
Arguments direct_hash : simpl never.
Arguments message_content_text : simpl never.
Arguments search_url : simpl never.
Arguments download_url : simpl never.
Arguments request_init : simpl never.
Arguments set_field : simpl never.
Arguments SEARCH_TEMPLATE : simpl never.
Arguments DOWNLOAD_TEMPLATE : simpl never.

(** Membership in a trace, one event at a time, through appended parts. *)
Ltac in_trace H :=
  simpl in H;
  repeat match type of H with
         | _ \/ _ => destruct H as [H|H]; [try discriminate H|]
         | False => destruct H
         | In _ (_ ++ _)%list => apply in_app_or in H; simpl in H
         end.

(** The events of a trace that come before its network call. *)
Ltac before_fetch t :=
  lazymatch t with
  | CallFetch _ _ :: _ => constr:(@nil Event)
  | ?ev :: ?t' => let p := before_fetch t' in constr:(ev :: p)
  end.

Section Requests.

Variable env : Environment.

(** If the search handler issues a network call and the service answers,
    the rest of the run is the treatment of that response, and nothing was
    sent to the callback before. *)
Lemma search_try_fetch (runtime : IAgentRuntime) (message : Memory)
      (state : option AgentState) (url : string) (init : RequestInit)
      (resp : Response) :
  In (CallFetch url init) (trace (LIBRARY_SEARCH_try env runtime message state)) ->
  fetch env url init = Ok resp ->
  exists pre,
    network_calls pre = 0 /\ callbacks pre = [] /\
    LIBRARY_SEARCH_try env runtime message state =
    (completion (LIBRARY_SEARCH_respond env resp),
     (pre ++ CallFetch url init :: trace (LIBRARY_SEARCH_respond env resp))%list).
Proof.
  intros Hin Hf. revert Hin.
  unfold LIBRARY_SEARCH_try, refresh_state, call_generateObject, call_fetch, trace.
  run; intros Hin; in_trace Hin.
  all: try (injection Hin as <- <-).
  all: try (exfalso; apply network_calls_In in Hin; apply Hin;
            match goal with
            | Hm : LIBRARY_SEARCH_respond env ?r = (_, ?l) |- _ =>
                replace l with (trace (LIBRARY_SEARCH_respond env r))
                  by (now rewrite Hm);
                apply search_respond_quiet
            end).
  all: try congruence.
  all: match goal with
       | Hm : LIBRARY_SEARCH_respond env ?r = _, Hr : fetch env _ _ = Ok ?r
         |- exists pre, _ /\ _ /\ (_, ?t) = _ =>
           let p := before_fetch t in
           exists p; rewrite Hf in Hr; injection Hr as <-; rewrite Hm;
           repeat split
       end.
Qed.

Lemma download_try_fetch (runtime : IAgentRuntime) (message : Memory)
      (state : option AgentState) (url : string) (init : RequestInit)
      (resp : Response) :
  In (CallFetch url init) (trace (LIBRARY_DOWNLOAD_try env runtime message state)) ->
  fetch env url init = Ok resp ->
  exists pre,
    network_calls pre = 0 /\
    LIBRARY_DOWNLOAD_try env runtime message state =
    (completion (LIBRARY_DOWNLOAD_respond env resp),
     (pre ++ CallFetch url init :: trace (LIBRARY_DOWNLOAD_respond env resp))%list).
Proof.
  intros Hin Hf. revert Hin.
  unfold LIBRARY_DOWNLOAD_try, extract_md5, refresh_state, call_generateObject,
    call_fetch, trace.
  run; intros Hin; in_trace Hin.
  all: try (injection Hin as <- <-).
  all: try (exfalso; apply network_calls_In in Hin; apply Hin;
            match goal with
            | Hm : LIBRARY_DOWNLOAD_respond env ?r = (_, ?l) |- _ =>
                replace l with (trace (LIBRARY_DOWNLOAD_respond env r))
                  by (now rewrite Hm);
                apply download_respond_quiet
            end).
  all: try congruence.
  all: match goal with
       | Hm : LIBRARY_DOWNLOAD_respond env ?r = _, Hr : fetch env _ _ = Ok ?r
         |- exists pre, _ /\ (_, ?t) = _ =>
           let p := before_fetch t in
           exists p; rewrite Hf in Hr; injection Hr as <-; rewrite Hm;
           repeat split
       end.
Qed.

(** The [catch] clauses make no network call: one seen in the trace of a
    handler was made by the body of its [try]. *)
Lemma search_handler_fetch (runtime : IAgentRuntime) (message : Memory)
      (state : option AgentState) (url : string) (init : RequestInit) :
  In (CallFetch url init) (trace (LIBRARY_SEARCH_handler env runtime message state)) ->
  In (CallFetch url init) (trace (LIBRARY_SEARCH_try env runtime message state)).
Proof.
  unfold LIBRARY_SEARCH_handler. rewrite try_catch_run.
  destruct (completion (LIBRARY_SEARCH_try env runtime message state)); [tauto|].
  cbn [trace snd]. intros H. apply in_app_or in H. destruct H as [H|H]; [exact H|].
  in_trace H.
Qed.

Lemma download_handler_fetch (runtime : IAgentRuntime) (message : Memory)
      (state : option AgentState) (url : string) (init : RequestInit) :
  In (CallFetch url init) (trace (LIBRARY_DOWNLOAD_handler env runtime message state)) ->
  In (CallFetch url init) (trace (LIBRARY_DOWNLOAD_try env runtime message state)).
Proof.
  unfold LIBRARY_DOWNLOAD_handler. rewrite try_catch_run.
  destruct (completion (LIBRARY_DOWNLOAD_try env runtime message state)); [tauto|].
  cbn [trace snd]. intros H. apply in_app_or in H. destruct H as [H|H]; [exact H|].
  in_trace H.
Qed.

End Requests.

(** ** The handlers *)

Lemma hash_truthy (n : nat) (t h : string) :
  find_hex (S n) t = Some h -> truthy (JStr h) = true.
Proof.
  intros H. apply find_hex_Some in H. destruct H as (_ & _ & [Hlen _] & _).
  destruct h; [discriminate | reflexivity].
Qed.

Lemma to_string_JStr (s : string) : to_string (JStr s) = Ok s.
Proof. reflexivity. Qed.

Lemma extractor_calls_none (tr : list Event) :
  (forall ctx mc, ~ In (CallGenerateObject ctx mc) tr) -> extractor_calls tr = 0.
Proof.
  unfold extractor_calls. induction tr as [|ev tr IH]; intros H; [reflexivity|].
  simpl. destruct ev; try (apply IH; intros ctx mc Hin; apply (H ctx mc); now right).
  exfalso. apply (H context modelClass). now left.
Qed.

Lemma network_calls_none (tr : list Event) :
  (forall url init, ~ In (CallFetch url init) tr) -> network_calls tr = 0.
Proof.
  unfold network_calls. induction tr as [|ev tr IH]; intros H; [reflexivity|].
  simpl. destruct ev; try (apply IH; intros u i Hin; apply (H u i); now right).
  exfalso. apply (H url init). now left.
Qed.

Arguments extractor_calls : simpl never.
Arguments network_calls : simpl never.
Arguments callbacks : simpl never.

(** What is known of the treatment of a response: it calls neither the
    network nor the extractor. *)
Ltac respond_facts :=
  repeat match goal with
         | Hm : LIBRARY_DOWNLOAD_respond ?env ?r = (_, ?l) |- _ =>
             let Hq := fresh "Hquiet" in
             pose proof (download_respond_quiet env r) as Hq;
             rewrite Hm in Hq; cbn [trace snd] in Hq; revert Hm
         | Hm : LIBRARY_SEARCH_respond ?env ?r = (_, ?l) |- _ =>
             let Hq := fresh "Hquiet" in
             pose proof (search_respond_quiet env r) as Hq;
             rewrite Hm in Hq; cbn [trace snd] in Hq; revert Hm
         end; intros.

Ltac no_extractor :=
  apply extractor_calls_none;
  let Hin := fresh "Hin" in
  intros ? ? Hin; in_trace Hin;
  try (apply extractor_calls_In in Hin; tauto).

Ltac no_network :=
  apply network_calls_none;
  let Hin := fresh "Hin" in
  intros ? ? Hin; in_trace Hin;
  try (apply network_calls_In in Hin; tauto).

(** The direct path of the download handler: when the pattern finds [h] in the
    text, the extractor is left alone and the download request carries [h]. *)
Lemma download_direct_path
      (env : Environment) (runtime : IAgentRuntime) (message : Memory)
      (state : option AgentState) (h : string) :
  direct_hash message = Ok (JStr h) -> truthy (JStr h) = true ->
  extractor_calls (trace (LIBRARY_DOWNLOAD_handler env runtime message state)) = 0 /\
  (forall url init,
      In (CallFetch url init)
         (trace (LIBRARY_DOWNLOAD_handler env runtime message state)) ->
      url = download_url h) /\
  (forall key state',
      api_key env = Some key ->
      completion (refresh_state runtime message state) = Ok state' ->
      exists post,
        trace (LIBRARY_DOWNLOAD_handler env runtime message state) =
        (trace (refresh_state runtime message state)
         ++ CallFetch (download_url h) (request_init key) :: post)%list).
Proof.
  intros Hd Htr.
  unfold LIBRARY_DOWNLOAD_handler, LIBRARY_DOWNLOAD_try, refresh_state, call_fetch,
    elizaLogger_error, callback, trace, completion.
  pose proof (to_string_JStr h) as Hprint.
  run_known.
  all: respond_facts.
  all: split; [no_extractor | split].
  all: try (intros url init Hin; in_trace Hin;
            try (apply network_calls_In in Hin; tauto);
            try (injection Hin as <- _; reflexivity); fail).
  all: intros key state' Hk Hs; try discriminate;
    injection Hk as <-; eexists; reflexivity.
Qed.

Lemma truthy_undefined : truthy JUndefined = false.
Proof. reflexivity. Qed.

Lemma extractor_calls_cons (ev : Event) (tr : list Event) :
  extractor_calls (ev :: tr) =
  match ev with CallGenerateObject _ _ => 1 | _ => 0 end + extractor_calls tr.
Proof. unfold extractor_calls. now destruct ev. Qed.

Lemma extractor_calls_nil : extractor_calls [] = 0.
Proof. reflexivity. Qed.

(** Count the extractor calls of a trace whose events are known up to the
    treatment of a response. *)
Ltac count_extractor :=
  respond_facts;
  repeat match goal with
         | Hq : _ /\ extractor_calls _ = 0 |- _ => destruct Hq as [_ Hq]
         end;
  repeat first [ rewrite extractor_calls_cons
               | rewrite extractor_calls_app
               | rewrite extractor_calls_nil ];
  repeat match goal with
         | Hq : extractor_calls ?l = 0 |- context [extractor_calls ?l] => rewrite Hq
         end;
  reflexivity.

Lemma opt_get_of_get (v x : JsValue) (k : string) :
  get_prop v k = Ok x -> opt_get v k = Ok x.
Proof. destruct v; try discriminate; auto. Qed.

(** Bring together what two hypotheses say of the same value. *)
Ltac merge_facts :=
  repeat match goal with
         | H : negb _ = true |- _ => apply negb_true_iff in H
         | H : negb _ = false |- _ => apply negb_false_iff in H
         | H1 : ?x = _, H2 : ?l = _ |- _ =>
             lazymatch l with
             | context [x] => rewrite H1 in H2; cbn [rbind] in H2
             end;
             first [ discriminate H2
                   | injection H2; clear H2; intros; subst
                   | idtac ]
         end.

Lemma first_hash_unique (n : nat) (t h h' : string) :
  first_hash n t h -> first_hash n t h' -> h = h'.
Proof.
  intros H H'. apply find_hex_Some in H. apply find_hex_Some in H'. congruence.
Qed.

Lemma hex_prefix_run (n : nat) (run rest : string) :
  all_chars is_lower_hex run = true -> n <= String.length run ->
  hex_prefix n (run ++ rest) = Some (substring 0 n run).
Proof.
  revert run. induction n as [|n IH]; intros run Hall Hlen.
  - now destruct run.
  - destruct run as [|c run]; simpl in *; [lia|].
    apply andb_true_iff in Hall. destruct Hall as [Hc Hall].
    rewrite Hc, (IH run Hall) by lia. reflexivity.
Qed.

Lemma whole_text_occurrence (t h : string) (i : nat) :
  occurs_at t i h -> String.length h = String.length t -> h = t.
Proof.
  intros (pre & post & -> & _) Hlen.
  rewrite !string_length_app in Hlen.
  destruct pre; [|simpl in Hlen; lia]. destruct post; [|simpl in Hlen; lia].
  simpl. now rewrite append_nil_r.
Qed.

Lemma lines_text_join (lines : list string) : lines_text lines = join nl lines.
Proof.
  induction lines as [|line rest IH]; [reflexivity|].
  destruct rest as [|next rest]; [reflexivity|].
  change (line ++ nl ++ lines_text (next :: rest)
          = line ++ nl ++ join nl (next :: rest)).
  now rewrite IH.
Qed.

(** A printed integer reads back as itself. *)
Lemma read_number_string_of_Z (n : Z) : read_number (string_of_Z n) = Some n.
Proof.
  unfold read_number, string_of_Z.
  rewrite NilZero.isi.
  - cbn [option_map]. now rewrite DecimalZ.of_to.
  - destruct n; try discriminate.
    cbn [Z.to_int]. intros [= H]. exact (DecimalPos.Unsigned.to_uint_nonnil _ H).
  - destruct n; try discriminate.
    cbn [Z.to_int]. intros [= H]. exact (DecimalPos.Unsigned.to_uint_nonnil _ H).
Qed.

(** * The claims *)

(** What the bodies of the two [try] statements throw in the failures the
    handlers know by name. *)
Lemma search_no_term_throws
      (env : Environment) (runtime : IAgentRuntime) (memory : Memory)
      (state : option AgentState) (ctx : string) (mc : ModelClass)
      (extracted found : JsValue) :
  In (CallGenerateObject ctx mc)
     (trace (LIBRARY_SEARCH_handler env runtime memory state)) ->
  generateObjectDeprecated env runtime ctx mc = Ok extracted ->
  opt_get extracted "searchTerm" = Ok found -> truthy found = false ->
  completion (LIBRARY_SEARCH_try env runtime memory state) =
    Throw (Error "No search term found in response").
Proof.
  intros Hin Hgen Hget Hfalsy. revert Hin.
  unfold LIBRARY_SEARCH_handler, LIBRARY_SEARCH_try, refresh_state,
    call_generateObject, call_fetch, elizaLogger_error, elizaLogger_log, callback,
    trace, completion.
  run; intros Hin; in_trace Hin; respond_facts.
  all: try (apply extractor_calls_In in Hin; tauto).
  all: injection Hin as -> <-.
  all: merge_facts.
  all: reflexivity.
Qed.

Lemma download_no_md5_throws
      (env : Environment) (runtime : IAgentRuntime) (memory : Memory)
      (state : option AgentState) (ctx : string) (mc : ModelClass)
      (extracted found : JsValue) :
  In (CallGenerateObject ctx mc)
     (trace (LIBRARY_DOWNLOAD_handler env runtime memory state)) ->
  generateObjectDeprecated env runtime ctx mc = Ok extracted ->
  opt_get extracted "md5" = Ok found -> truthy found = false ->
  completion (LIBRARY_DOWNLOAD_try env runtime memory state) =
    Throw (Error "Could not find the MD5 hash for the requested book").
Proof.
  intros Hin Hgen Hget Hfalsy. revert Hin.
  unfold LIBRARY_DOWNLOAD_handler, LIBRARY_DOWNLOAD_try, extract_md5, refresh_state,
    call_generateObject, call_fetch, elizaLogger_error, elizaLogger_log, callback,
    trace, completion.
  run; intros Hin; in_trace Hin; respond_facts.
  all: try (apply extractor_calls_In in Hin; tauto).
  all: injection Hin as -> <-.
  all: merge_facts.
  all: reflexivity.
Qed.

(** C1: each handler completes normally in every run, and whatever the body
    of its [try] throws is logged and handed to the callback as the apology
    that ends with the message of the error.  The four failures the handlers
    know by name are such errors, thrown inside the [try] with these
    messages: no search term extracted, no hash extracted, a body that is
    not JSON, and a failure status.  Thrown values are [Error] objects, and
    the callback and the logger are effects that do not throw. *)
Theorem handlers_catch_every_error
        (env : Environment) (runtime : IAgentRuntime) (memory : Memory)
        (state : option AgentState) :
  completion (LIBRARY_SEARCH_handler env runtime memory state) = Ok tt /\
  completion (LIBRARY_DOWNLOAD_handler env runtime memory state) = Ok tt /\
  (forall error,
      completion (LIBRARY_SEARCH_try env runtime memory state) = Throw error ->
      trace (LIBRARY_SEARCH_handler env runtime memory state) =
      (trace (LIBRARY_SEARCH_try env runtime memory state)
       ++ [LogError [LStr "Library search error:"; LErr error];
           Callback ("Sorry, I'm having trouble with the search: "
                     ++ message error)])%list) /\
  (forall error,
      completion (LIBRARY_DOWNLOAD_try env runtime memory state) = Throw error ->
      trace (LIBRARY_DOWNLOAD_handler env runtime memory state) =
      (trace (LIBRARY_DOWNLOAD_try env runtime memory state)
       ++ [LogError [LStr "Library download error:"; LErr error];
           Callback ("Sorry, I'm having trouble getting the download links: "
                     ++ message error)])%list) /\
  (forall ctx mc extracted found,
      In (CallGenerateObject ctx mc)
         (trace (LIBRARY_SEARCH_handler env runtime memory state)) ->
      generateObjectDeprecated env runtime ctx mc = Ok extracted ->
      opt_get extracted "searchTerm" = Ok found -> truthy found = false ->
      completion (LIBRARY_SEARCH_try env runtime memory state) =
        Throw (Error "No search term found in response")) /\
  (forall ctx mc extracted found,
      In (CallGenerateObject ctx mc)
         (trace (LIBRARY_DOWNLOAD_handler env runtime memory state)) ->
      generateObjectDeprecated env runtime ctx mc = Ok extracted ->
      opt_get extracted "md5" = Ok found -> truthy found = false ->
      completion (LIBRARY_DOWNLOAD_try env runtime memory state) =
        Throw (Error "Could not find the MD5 hash for the requested book")) /\
  (forall url init resp txt e,
      fetch env url init = Ok resp -> body resp = Ok txt ->
      JSON_parse env txt = Throw e ->
      (In (CallFetch url init)
          (trace (LIBRARY_SEARCH_handler env runtime memory state)) ->
       completion (LIBRARY_SEARCH_try env runtime memory state) =
         Throw (Error ("Failed to parse API response: " ++ message e))) /\
      (In (CallFetch url init)
          (trace (LIBRARY_DOWNLOAD_handler env runtime memory state)) ->
       completion (LIBRARY_DOWNLOAD_try env runtime memory state) =
         Throw (Error ("Failed to parse API response: " ++ message e)))) /\
  (forall url init resp txt data,
      fetch env url init = Ok resp -> ok resp = false -> body resp = Ok txt ->
      JSON_parse env txt = Ok data ->
      (In (CallFetch url init)
          (trace (LIBRARY_SEARCH_handler env runtime memory state)) ->
       completion (LIBRARY_SEARCH_try env runtime memory state) =
         Throw (Error ("API request failed with status "
                       ++ string_of_Z (status resp) ++ ": "
                       ++ JSON_stringify env data))) /\
      (In (CallFetch url init)
          (trace (LIBRARY_DOWNLOAD_handler env runtime memory state)) ->
       completion (LIBRARY_DOWNLOAD_try env runtime memory state) =
         Throw (Error ("API request failed with status "
                       ++ string_of_Z (status resp) ++ ": "
                       ++ JSON_stringify env data)))).
Proof.
  split; [|split; [|split; [|split; [|split; [|split; [|split]]]]]].
  - unfold LIBRARY_SEARCH_handler. rewrite try_catch_run. unfold completion.
    now destruct (LIBRARY_SEARCH_try env runtime memory state) as [[[]|e] t].
  - unfold LIBRARY_DOWNLOAD_handler. rewrite try_catch_run. unfold completion.
    now destruct (LIBRARY_DOWNLOAD_try env runtime memory state) as [[[]|e] t].
  - intros error Hthrown.
    unfold LIBRARY_SEARCH_handler. rewrite try_catch_run, Hthrown. reflexivity.
  - intros error Hthrown.
    unfold LIBRARY_DOWNLOAD_handler. rewrite try_catch_run, Hthrown. reflexivity.
  - intros ctx mc extracted found. apply search_no_term_throws.
  - intros ctx mc extracted found. apply download_no_md5_throws.
  - intros url init resp txt e Hf Hb Hp. split; intros Hin.
    + apply search_handler_fetch in Hin.
      destruct (search_try_fetch _ _ _ _ _ _ _ Hin Hf) as (pre & _ & _ & Heq).
      rewrite (search_respond_unparsable _ _ _ _ Hb Hp) in Heq. now rewrite Heq.
    + apply download_handler_fetch in Hin.
      destruct (download_try_fetch _ _ _ _ _ _ _ Hin Hf) as (pre & _ & Heq).
      rewrite (download_respond_unparsable _ _ _ _ Hb Hp) in Heq. now rewrite Heq.
  - intros url init resp txt data Hf Hok Hb Hp. split; intros Hin.
    + apply search_handler_fetch in Hin.
      destruct (search_try_fetch _ _ _ _ _ _ _ Hin Hf) as (pre & _ & _ & Heq).
      rewrite (search_respond_api_error _ _ _ _ Hb Hp Hok) in Heq. now rewrite Heq.
    + apply download_handler_fetch in Hin.
      destruct (download_try_fetch _ _ _ _ _ _ _ Hin Hf) as (pre & _ & Heq).
      rewrite (download_respond_api_error _ _ _ _ Hb Hp Hok) in Heq. now rewrite Heq.
Qed.

(** C2: with [RAPID_API_KEY] unset, each handler does one thing: it hands the
    configuration error to the callback, and returns.  No state is composed,
    no extractor and no network call is made. *)
Theorem missing_key_short_circuits
        (env : Environment) (runtime : IAgentRuntime) (message : Memory)
        (state : option AgentState) :
  RAPID_API_KEY env = None ->
  LIBRARY_SEARCH_handler env runtime message state =
    (Ok tt, [Callback "Error: RAPID_API_KEY is not configured"]) /\
  LIBRARY_DOWNLOAD_handler env runtime message state =
    (Ok tt, [Callback "Error: RAPID_API_KEY is not configured"]).
Proof.
  intros Hkey.
  unfold LIBRARY_SEARCH_handler, LIBRARY_SEARCH_try, LIBRARY_DOWNLOAD_handler,
    LIBRARY_DOWNLOAD_try, api_key.
  rewrite Hkey. split; reflexivity.
Qed.

(** C3: when the text of the message contains a run of 32 lower-case
    hexadecimal digits, the download handler never calls the extractor, and
    every request it sends is the download endpoint with such a run of the
    text (the first one) as the value of [md5].  With the key configured
    and the state refreshed, that request is sent right after the state
    refresh. *)
Theorem direct_hash_skips_extractor
        (env : Environment) (runtime : IAgentRuntime) (message : Memory)
        (state : option AgentState) (c : Content) (t : string) :
  content message = Some c -> text c = Some t -> contains_hash 32 t ->
  exists h,
    first_hash 32 t h /\
    extractor_calls (trace (LIBRARY_DOWNLOAD_handler env runtime message state)) = 0 /\
    (forall url init,
        In (CallFetch url init)
           (trace (LIBRARY_DOWNLOAD_handler env runtime message state)) ->
        url = "https://annas-archive-api.p.rapidapi.com/download?md5=" ++ h) /\
    (forall key state',
        api_key env = Some key ->
        completion (refresh_state runtime message state) = Ok state' ->
        exists post,
          trace (LIBRARY_DOWNLOAD_handler env runtime message state) =
          (trace (refresh_state runtime message state)
           ++ CallFetch ("https://annas-archive-api.p.rapidapi.com/download?md5=" ++ h)
                        (request_init key)
           :: post)%list).
Proof.
  intros Hc Ht Hcontains.
  destruct (find_hex_contains _ _ Hcontains) as [h Hh].
  exists h. split; [now apply find_hex_Some|].
  assert (download_url h = "https://annas-archive-api.p.rapidapi.com/download?md5=" ++ h)
    as <- by reflexivity.
  apply download_direct_path.
  - unfold direct_hash, match_hash. now rewrite Hc, Ht, Hh.
  - exact (hash_truthy _ _ _ Hh).
Qed.

(** C4: when the text of the message contains no run of 32 lower-case
    hexadecimal digits (and the key is configured, the state refreshed and
    the extraction context composed), the download handler calls the
    extractor exactly once; when the object it returns has no [md5], the
    handler fails with the identifier-not-found error, makes no network call,
    and reports the error through the callback. *)
Theorem no_hash_asks_extractor_once
        (env : Environment) (runtime : IAgentRuntime) (message : Memory)
        (state : option AgentState) (c : Content) (t key ctx : string)
        (state' : AgentState) :
  content message = Some c -> text c = Some t -> ~ contains_hash 32 t ->
  api_key env = Some key ->
  completion (refresh_state runtime message state) = Ok state' ->
  composeContext env state' DOWNLOAD_TEMPLATE = Ok ctx ->
  extractor_calls (trace (LIBRARY_DOWNLOAD_handler env runtime message state)) = 1 /\
  (forall extracted,
      generateObjectDeprecated env runtime ctx LARGE = Ok extracted ->
      opt_get extracted "md5" = Ok JUndefined ->
      completion (LIBRARY_DOWNLOAD_try env runtime message state) =
        Throw (Error "Could not find the MD5 hash for the requested book") /\
      network_calls (trace (LIBRARY_DOWNLOAD_handler env runtime message state)) = 0 /\
      completion (LIBRARY_DOWNLOAD_handler env runtime message state) = Ok tt /\
      callbacks (trace (LIBRARY_DOWNLOAD_handler env runtime message state)) =
        ["Sorry, I'm having trouble getting the download links: "
         ++ "Could not find the MD5 hash for the requested book"]).
Proof.
  intros Hc Ht Hnone Hk Hs Hctx.
  assert (direct_hash message = Ok JUndefined) as Hd.
  { unfold direct_hash, match_hash. rewrite Hc, Ht.
    now rewrite (proj2 (find_hex_None 32 t) Hnone). }
  pose proof truthy_undefined as Hu.
  unfold refresh_state, completion in Hs.
  destruct state as [s0|]; cbn in Hs;
    [ destruct (updateRecentMessageState runtime s0) eqn:Hr
    | destruct (composeState runtime message) eqn:Hr ];
    cbn in Hs; try discriminate Hs; injection Hs as ->.
  all: split;
    [ | intros extracted Hgen Hmd5 ];
    unfold LIBRARY_DOWNLOAD_handler, LIBRARY_DOWNLOAD_try, extract_md5, refresh_state,
      call_fetch, call_generateObject, elizaLogger_error, callback, trace, completion;
    run_known; try congruence.
  all: try count_extractor.
  all: repeat split; reflexivity.
Qed.

(** C5: when the body of the response is not JSON, either handler logs the
    raw body and fails with the parse error: after the network call the
    trace holds that log entry, the log entry of the [catch] clause and the
    apology, and nothing else.  Neither [ok] nor [status] is assumed, so the
    same happens for a response with a failure status. *)
Theorem unparsable_body_stops_processing
        (env : Environment) (runtime : IAgentRuntime) (message : Memory)
        (state : option AgentState) (url : string) (init : RequestInit)
        (resp : Response) (txt : string) (e : JsError) :
  fetch env url init = Ok resp -> body resp = Ok txt ->
  JSON_parse env txt = Throw e ->
  (In (CallFetch url init) (trace (LIBRARY_SEARCH_handler env runtime message state)) ->
   completion (LIBRARY_SEARCH_try env runtime message state) =
     Throw (Error ("Failed to parse API response: " ++ JsError_message e)) /\
   exists pre,
     network_calls pre = 0 /\ callbacks pre = [] /\
     trace (LIBRARY_SEARCH_handler env runtime message state) =
     (pre ++ [CallFetch url init;
              LogError [LStr "Failed to parse response:"; LStr txt];
              LogError [LStr "Library search error:";
                        LErr (Error ("Failed to parse API response: "
                                     ++ JsError_message e))];
              Callback ("Sorry, I'm having trouble with the search: "
                        ++ "Failed to parse API response: " ++ JsError_message e)])%list) /\
  (In (CallFetch url init) (trace (LIBRARY_DOWNLOAD_handler env runtime message state)) ->
   completion (LIBRARY_DOWNLOAD_try env runtime message state) =
     Throw (Error ("Failed to parse API response: " ++ JsError_message e)) /\
   exists pre,
     network_calls pre = 0 /\
     trace (LIBRARY_DOWNLOAD_handler env runtime message state) =
     (pre ++ [CallFetch url init;
              LogError [LStr "Failed to parse response:"; LStr txt];
              LogError [LStr "Library download error:";
                        LErr (Error ("Failed to parse API response: "
                                     ++ JsError_message e))];
              Callback ("Sorry, I'm having trouble getting the download links: "
                        ++ "Failed to parse API response: " ++ JsError_message e)])%list).
Proof.
  intros Hf Hb Hp. split; intros Hin.
  - apply search_handler_fetch in Hin.
    destruct (search_try_fetch _ _ _ _ _ _ _ Hin Hf) as (pre & Hn & Hcb & Heq).
    rewrite (search_respond_unparsable _ _ _ _ Hb Hp) in Heq.
    unfold LIBRARY_SEARCH_handler. rewrite Heq. split; [reflexivity|].
    exists pre. repeat split; try assumption.
    cbn. now rewrite <- app_assoc.
  - apply download_handler_fetch in Hin.
    destruct (download_try_fetch _ _ _ _ _ _ _ Hin Hf) as (pre & Hn & Heq).
    rewrite (download_respond_unparsable _ _ _ _ Hb Hp) in Heq.
    unfold LIBRARY_DOWNLOAD_handler. rewrite Heq. split; [reflexivity|].
    exists pre. repeat split; try assumption.
    cbn. now rewrite <- app_assoc.
Qed.


(** C7: a successful response whose JSON has no [books], or an empty array of
    books, is no failure: the body of the [try] completes normally and the
    one text the callback receives is the fixed message. *)
Theorem empty_search_reports_no_results
        (env : Environment) (runtime : IAgentRuntime) (message : Memory)
        (state : option AgentState) (url : string) (init : RequestInit)
        (resp : Response) (txt : string) (data : JsValue) :
  In (CallFetch url init) (trace (LIBRARY_SEARCH_handler env runtime message state)) ->
  fetch env url init = Ok resp -> ok resp = true -> body resp = Ok txt ->
  JSON_parse env txt = Ok data ->
  get_prop data "books" = Ok JUndefined \/ get_prop data "books" = Ok (JArr []) ->
  completion (LIBRARY_SEARCH_try env runtime message state) = Ok tt /\
  completion (LIBRARY_SEARCH_handler env runtime message state) = Ok tt /\
  callbacks (trace (LIBRARY_SEARCH_handler env runtime message state)) =
    ["No results found. Try modifying your search terms or using fewer filters."].
Proof.
  intros Hin Hf Hok Hb Hp Hbooks.
  apply search_handler_fetch in Hin.
  destruct (search_try_fetch _ _ _ _ _ _ _ Hin Hf) as (pre & Hn & Hcb & Heq).
  assert (exists books, get_prop data "books" = Ok books /\ absent_or_empty books = Ok true)
    as (books & Hget & Hnone).
  { destruct Hbooks as [H|H]; eexists; (split; [exact H | reflexivity]). }
  rewrite (search_respond_none _ _ _ _ _ Hb Hp Hok Hget Hnone) in Heq.
  unfold LIBRARY_SEARCH_handler. rewrite Heq. cbn [completion trace fst snd try_catch].
  repeat split. now rewrite callbacks_app, Hcb.
Qed.

(** C8: a successful download response whose JSON is a non-empty array of
    links is rendered as the reply that follows the network call: the
    heading, an empty line, then one line per link in the order of the
    response, line [i] (from 0) being the decimal numeral of [i + 1], a
    full stop, a space and link [i]. *)
Theorem download_links_numbered_in_order
        (env : Environment) (runtime : IAgentRuntime) (message : Memory)
        (state : option AgentState) (url : string) (init : RequestInit)
        (resp : Response) (txt : string) (links : list string) :
  In (CallFetch url init) (trace (LIBRARY_DOWNLOAD_handler env runtime message state)) ->
  fetch env url init = Ok resp -> ok resp = true -> body resp = Ok txt ->
  JSON_parse env txt = Ok (JArr (map JStr links)) -> links <> [] ->
  completion (LIBRARY_DOWNLOAD_handler env runtime message state) = Ok tt /\
  exists pre lines,
    network_calls pre = 0 /\
    trace (LIBRARY_DOWNLOAD_handler env runtime message state) =
      (pre ++ [CallFetch url init;
               Callback ("Here are the download links for the book:" ++ nl ++ nl
                         ++ lines_text lines)])%list /\
    List.length lines = List.length links /\
    forall i link,
      nth_error links i = Some link ->
      nth_error lines i = Some (string_of_nat (i + 1) ++ ". " ++ link) /\
      read_number (string_of_nat (i + 1)) = Some (Z.of_nat (i + 1)).
Proof.
  intros Hin Hf Hok Hb Hp Hne.
  apply download_handler_fetch in Hin.
  destruct (download_try_fetch _ _ _ _ _ _ _ Hin Hf) as (pre & Hn & Heq).
  rewrite (download_respond_links _ _ _ _ Hb Hp Hok Hne) in Heq.
  unfold LIBRARY_DOWNLOAD_handler. rewrite Heq. cbn [completion trace fst snd try_catch].
  split; [reflexivity|].
  exists pre, (numbered 1 links). split; [exact Hn|]. split; [|split].
  - now rewrite lines_text_join.
  - apply numbered_length.
  - intros i link Hi. split.
    + rewrite (numbered_nth _ 1 _ _ Hi). now rewrite Nat.add_comm.
    + apply read_number_string_of_Z.
Qed.

(** C9: when the download handler has asked the extractor and the extractor
    returned an object with an [md5] (and a title and an author that print),
    the callback receives the message that announces the download right
    after the extractor call and before any network call; the download
    request follows it.  Nothing is assumed of the answer to that request. *)
Theorem optimistic_message_before_fetch
        (env : Environment) (runtime : IAgentRuntime) (message : Memory)
        (state : option AgentState) (ctx : string) (mc : ModelClass)
        (extracted found title author : JsValue) (t a : string) :
  In (CallGenerateObject ctx mc)
     (trace (LIBRARY_DOWNLOAD_handler env runtime message state)) ->
  generateObjectDeprecated env runtime ctx mc = Ok extracted ->
  get_prop extracted "md5" = Ok found -> truthy found = true ->
  get_prop extracted "title" = Ok title -> to_string title = Ok t ->
  get_prop extracted "author" = Ok author -> to_string author = Ok a ->
  exists pre post key,
    api_key env = Some key /\
    trace (LIBRARY_DOWNLOAD_handler env runtime message state) =
      (pre ++ CallGenerateObject ctx mc
           :: Callback ("Downloading " ++ dq ++ t ++ dq ++ " by " ++ a ++ "...")
           :: post)%list /\
    network_calls pre = 0 /\
    (forall m, to_string found = Ok m ->
               exists post', post = CallFetch (download_url m) (request_init key) :: post').
Proof.
  intros Hin Hgen Hmd5 Htruthy Htitle Ht Hauthor Ha.
  pose proof (opt_get_of_get _ _ _ Hmd5) as Hopt.
  revert Hin.
  unfold LIBRARY_DOWNLOAD_handler, LIBRARY_DOWNLOAD_try, extract_md5, refresh_state,
    call_fetch, call_generateObject, elizaLogger_error, callback, trace, completion.
  run; intros Hin; in_trace Hin; respond_facts.
  all: try (apply extractor_calls_In in Hin; tauto).
  all: injection Hin as -> <-.
  all: merge_facts.
  all: eexists [_], _, _; split; [reflexivity | split; [reflexivity | split; [reflexivity|]]].
  all: intros m Hm; merge_facts; eexists; reflexivity.
Qed.

(** C10: the hash of the direct path is the first run of 32 lower-case
    hexadecimal digits anywhere in the text, and there is none exactly when
    the text contains no such run.  A longer run of such digits gives its
    first 32.  A string with an upper-case hexadecimal digit is never the
    result, and a 32-character text with one takes the extractor path.  The
    download request of the handler carries the hash found. *)
Theorem hash_pattern_first_lowercase_run (t : string) :
  (forall h, direct_hash (text_message t) = Ok (JStr h) <-> first_hash 32 t h) /\
  (direct_hash (text_message t) = Ok JUndefined <-> ~ contains_hash 32 t) /\
  (forall run rest,
      t = run ++ rest -> all_chars is_lower_hex run = true ->
      32 <= String.length run ->
      direct_hash (text_message t) = Ok (JStr (substring 0 32 run))) /\
  (forall h, has_char is_upper_hex h = true ->
             direct_hash (text_message t) <> Ok (JStr h)) /\
  (String.length t = 32 -> has_char is_upper_hex t = true ->
   direct_hash (text_message t) = Ok JUndefined) /\
  (forall env runtime state key state' h,
      first_hash 32 t h -> api_key env = Some key ->
      completion (refresh_state runtime (text_message t) state) = Ok state' ->
      In (CallFetch (download_url h) (request_init key))
         (trace (LIBRARY_DOWNLOAD_handler env runtime (text_message t) state))).
Proof.
  assert (forall h, direct_hash (text_message t) = Ok (JStr h) <-> first_hash 32 t h) as Hsome.
  { intros h. rewrite <- find_hex_Some. unfold direct_hash, match_hash. cbn.
    destruct (find_hex 32 t) as [m|]; split; congruence. }
  assert (direct_hash (text_message t) = Ok JUndefined <-> ~ contains_hash 32 t) as Hnone.
  { rewrite <- find_hex_None. unfold direct_hash, match_hash. cbn.
    destruct (find_hex 32 t) as [m|]; split; congruence. }
  split; [exact Hsome|]. split; [exact Hnone|]. split; [|split; [|split]].
  - intros run rest -> Hall Hlen. unfold direct_hash, match_hash. cbn.
    rewrite find_hex_unfold, (hex_prefix_run _ _ rest Hall Hlen). reflexivity.
  - intros h Hup Hd. apply Hsome in Hd. destruct Hd as (_ & _ & [_ Hall] & _).
    rewrite (has_upper_not_all_lower _ Hup) in Hall. discriminate.
  - intros Hlen Hup. apply Hnone. intros (i & h & Hocc & [Hl Hall]).
    rewrite (whole_text_occurrence _ _ _ Hocc) in Hall by congruence.
    rewrite (has_upper_not_all_lower _ Hup) in Hall. discriminate.
  - intros env runtime state key state' h Hh Hk Hs.
    pose proof (proj2 (find_hex_Some _ _ _) Hh) as Hfound.
    destruct (download_direct_path env runtime (text_message t) state h
                                   (proj2 (Hsome h) Hh) (hash_truthy _ _ _ Hfound))
      as (_ & _ & Hsent).
    destruct (Hsent key state' Hk Hs) as [post ->].
    apply in_or_app. right. now left.
Qed.

(** * Worked examples *)

Lemma handlers_catch_every_error_witness :
  LIBRARY_SEARCH_handler env_no_md5 example_runtime (text_message "hello") None =
    (Ok tt,
     [CallComposeState (text_message "hello");
      CallGenerateObject SEARCH_TEMPLATE LARGE;
      LogError [LStr "Library search error:";
                LErr (Error "No search term found in response")];
      Callback "Sorry, I'm having trouble with the search: No search term found in response"]) /\
  LIBRARY_DOWNLOAD_handler env_unparsable example_runtime
                           (text_message example_download_text) None =
    (Ok tt,
     [CallComposeState (text_message example_download_text);
      CallFetch
        "https://annas-archive-api.p.rapidapi.com/download?md5=5b723c172fc4c8a77f476e7016ad3945"
        (request_init "key");
      LogError [LStr "Failed to parse response:"; LStr "<html>"];
      LogError
        [LStr "Library download error:";
         LErr (Error "Failed to parse API response: Unexpected token < in JSON at position 0")];
      Callback ("Sorry, I'm having trouble getting the download links: "
                ++ "Failed to parse API response: "
                ++ "Unexpected token < in JSON at position 0")]).
Proof.
  split.
  - destruct (handlers_catch_every_error env_no_md5 example_runtime
                                         (text_message "hello") None)
      as (Hnormal & _ & Hcaught & _ & Hterm & _).
    rewrite (surjective_pairing (LIBRARY_SEARCH_handler _ _ _ _)).
    change (fst ?m) with (completion m). change (snd ?m) with (trace m).
    rewrite Hnormal, (Hcaught (Error "No search term found in response")).
    + reflexivity.
    + apply (Hterm SEARCH_TEMPLATE LARGE (JObj [("title", JStr "Superintelligence")])
                   JUndefined).
      * vm_compute; repeat (first [left; reflexivity | right]).
      * reflexivity.
      * reflexivity.
      * reflexivity.
  - destruct (handlers_catch_every_error env_unparsable example_runtime
                                         (text_message example_download_text) None)
      as (_ & Hnormal & _ & Hcaught & _ & _ & Hparse & _).
    rewrite (surjective_pairing (LIBRARY_DOWNLOAD_handler _ _ _ _)).
    change (fst ?m) with (completion m). change (snd ?m) with (trace m).
    rewrite Hnormal,
      (Hcaught (Error "Failed to parse API response: Unexpected token < in JSON at position 0")).
    + reflexivity.
    + apply (proj2 (Hparse (download_url example_hash) (request_init "key")
                           (failure 503 "<html>") "<html>" example_syntax_error
                           eq_refl eq_refl eq_refl)).
      vm_compute; repeat (first [left; reflexivity | right]).
Defined.

Lemma missing_key_short_circuits_witness :
  LIBRARY_SEARCH_handler env_unset example_runtime (text_message "machine learning") None =
    (Ok tt, [Callback "Error: RAPID_API_KEY is not configured"]) /\
  LIBRARY_DOWNLOAD_handler env_unset example_runtime (text_message "machine learning") None =
    (Ok tt, [Callback "Error: RAPID_API_KEY is not configured"]).
Proof.
  apply (missing_key_short_circuits env_unset example_runtime
                                    (text_message "machine learning") None).
  reflexivity.
Defined.

Lemma direct_hash_skips_extractor_witness :
  extractor_calls
    (trace (LIBRARY_DOWNLOAD_handler env_links example_runtime
                                     (text_message example_download_text) None)) = 0 /\
  exists post,
    trace (LIBRARY_DOWNLOAD_handler env_links example_runtime
                                    (text_message example_download_text) None) =
    CallComposeState (text_message example_download_text)
    :: CallFetch
         "https://annas-archive-api.p.rapidapi.com/download?md5=5b723c172fc4c8a77f476e7016ad3945"
         (request_init "key")
    :: post.
Proof.
  destruct (direct_hash_skips_extractor
              env_links example_runtime (text_message example_download_text) None
              {| text := Some example_download_text |} example_download_text)
    as (h & Hfirst & Hnone & _ & Hsent).
  - reflexivity.
  - reflexivity.
  - exists 23, example_hash. split.
    + now exists "Download book with MD5 ", EmptyString.
    + split; reflexivity.
  - split; [exact Hnone|].
    assert (h = example_hash) as ->.
    { apply find_hex_Some in Hfirst. vm_compute in Hfirst. now injection Hfirst. }
    destruct (Hsent "key" [] eq_refl eq_refl) as [post Hpost].
    exists post. exact Hpost.
Defined.

Lemma no_hash_asks_extractor_once_witness :
  extractor_calls
    (trace (LIBRARY_DOWNLOAD_handler env_no_md5 example_runtime
                                     (text_message "download the bostrom book") None)) = 1 /\
  network_calls
    (trace (LIBRARY_DOWNLOAD_handler env_no_md5 example_runtime
                                     (text_message "download the bostrom book") None)) = 0.
Proof.
  destruct (no_hash_asks_extractor_once
              env_no_md5 example_runtime (text_message "download the bostrom book") None
              {| text := Some "download the bostrom book" |}
              "download the bostrom book" "key" DOWNLOAD_TEMPLATE [])
    as (Hone & Hlacks).
  - reflexivity.
  - reflexivity.
  - apply find_hex_None. reflexivity.
  - reflexivity.
  - reflexivity.
  - reflexivity.
  - split; [exact Hone|]. apply (Hlacks (JObj [("title", JStr "Superintelligence")])).
    + reflexivity.
    + reflexivity.
Defined.

Lemma unparsable_body_stops_processing_witness :
  completion (LIBRARY_SEARCH_try env_unparsable example_runtime
                                 (text_message example_download_text) None) =
    Throw (Error "Failed to parse API response: Unexpected token < in JSON at position 0") /\
  completion (LIBRARY_DOWNLOAD_try env_unparsable example_runtime
                                   (text_message example_download_text) None) =
    Throw (Error "Failed to parse API response: Unexpected token < in JSON at position 0").
Proof.
  split.
  - destruct (unparsable_body_stops_processing
                env_unparsable example_runtime (text_message example_download_text) None
                (search_url "machine learning") (request_init "key")
                (failure 503 "<html>") "<html>" example_syntax_error
                eq_refl eq_refl eq_refl) as [Hsearch _].
    apply Hsearch.
    vm_compute; repeat (first [left; reflexivity | right]).
  - destruct (unparsable_body_stops_processing
                env_unparsable example_runtime (text_message example_download_text) None
                (download_url example_hash) (request_init "key")
                (failure 503 "<html>") "<html>" example_syntax_error
                eq_refl eq_refl eq_refl) as [_ Hdownload].
    apply Hdownload.
    vm_compute; repeat (first [left; reflexivity | right]).
Defined.


Lemma empty_search_reports_no_results_witness :
  callbacks (trace (LIBRARY_SEARCH_handler env_no_books example_runtime
                                           (text_message "find me a book on ML") None)) =
  ["No results found. Try modifying your search terms or using fewer filters."].
Proof.
  apply (empty_search_reports_no_results
           env_no_books example_runtime (text_message "find me a book on ML") None
           (search_url "machine learning") (request_init "key")
           (success "(no book)") "(no book)"
           (JObj [("total", JNum 0); ("books", JArr [])])).
  - vm_compute; repeat (first [left; reflexivity | right]).
  - reflexivity.
  - reflexivity.
  - reflexivity.
  - reflexivity.
  - right. reflexivity.
Defined.

Lemma download_links_numbered_in_order_witness :
  exists pre,
    trace (LIBRARY_DOWNLOAD_handler env_links example_runtime
                                    (text_message example_download_text) None) =
    (pre ++ [CallFetch
               "https://annas-archive-api.p.rapidapi.com/download?md5=5b723c172fc4c8a77f476e7016ad3945"
               (request_init "key");
             Callback ("Here are the download links for the book:" ++ nl ++ nl
                       ++ "1. http://a" ++ nl ++ "2. http://b")])%list.
Proof.
  destruct (download_links_numbered_in_order
              env_links example_runtime (text_message example_download_text) None
              (download_url example_hash) (request_init "key")
              (success "(two links)") "(two links)" example_links)
    as (_ & pre & lines & _ & Htrace & Hlen & Hline).
  - vm_compute; repeat (first [left; reflexivity | right]).
  - reflexivity.
  - reflexivity.
  - reflexivity.
  - reflexivity.
  - discriminate.
  - destruct lines as [|first [|second [|third lines]]]; try discriminate Hlen.
    destruct (Hline 0 "http://a" eq_refl) as [Hfirst _].
    destruct (Hline 1 "http://b" eq_refl) as [Hsecond _].
    injection Hfirst as ->. injection Hsecond as ->.
    exists pre. exact Htrace.
Defined.

Lemma optimistic_message_before_fetch_witness :
  exists pre post,
    trace (LIBRARY_DOWNLOAD_handler env_unparsable example_runtime
                                    (text_message "download the bostrom book") None) =
    (pre ++ CallGenerateObject DOWNLOAD_TEMPLATE LARGE
         :: Callback ("Downloading " ++ dq
                      ++ "Superintelligence: Paths, Dangers, Strategies" ++ dq
                      ++ " by Nick Bostrom...")
         :: CallFetch (download_url "8fd5a47e020c1e95c54bffa00cbf5484") (request_init "key")
         :: post)%list /\
    network_calls pre = 0.
Proof.
  destruct (optimistic_message_before_fetch
              env_unparsable example_runtime (text_message "download the bostrom book") None
              DOWNLOAD_TEMPLATE LARGE example_extracted
              (JStr "8fd5a47e020c1e95c54bffa00cbf5484")
              (JStr "Superintelligence: Paths, Dangers, Strategies") (JStr "Nick Bostrom")
              "Superintelligence: Paths, Dangers, Strategies" "Nick Bostrom")
    as (pre & post & key & Hkey & Htrace & Hpre & Hsent).
  - vm_compute; repeat (first [left; reflexivity | right]).
  - reflexivity.
  - reflexivity.
  - reflexivity.
  - reflexivity.
  - reflexivity.
  - reflexivity.
  - reflexivity.
  - destruct (Hsent "8fd5a47e020c1e95c54bffa00cbf5484" eq_refl) as [post' Hpost].
    injection Hkey as <-.
    exists pre, post'. split; [|exact Hpre].
    rewrite Htrace, Hpost. reflexivity.
Defined.

(** The examples of the specification, evaluated. *)

Example search_url_example :
  search_url "machine learning" =
  "https://annas-archive-api.p.rapidapi.com/search?q=machine+learning&limit=10&sort=mostRelevant".
Proof. reflexivity. Qed.

Example download_example :
  LIBRARY_DOWNLOAD_handler env_links example_runtime
                           (text_message example_download_text) None =
  (Ok tt,
   [CallComposeState (text_message example_download_text);
    CallFetch (download_url example_hash) (request_init "key");
    Callback ("Here are the download links for the book:" ++ nl ++ nl
              ++ "1. http://a" ++ nl ++ "2. http://b")]).
Proof. reflexivity. Qed.

Example sha1_example :
  match_hash "sha1 da39a3ee5e6b4b0d3255bfef95601890afd80709"
  = Some "da39a3ee5e6b4b0d3255bfef95601890".
Proof. reflexivity. Qed.

Example sha256_example :
  match_hash "e3b0c44298fc1c149afbf4c8996fb92427ae41e4649b934ca495991b7852b855"
  = Some "e3b0c44298fc1c149afbf4c8996fb924".
Proof. reflexivity. Qed.

Example upper_case_example :
  match_hash "Download book with MD5 5B723C172FC4C8A77F476E7016AD3945" = None.
Proof. reflexivity. Qed.

(** The other failures the handlers report: an extractor that finds no search
    term, and a response with a failure status whose body is JSON. *)
Example extraction_failure_example :
  LIBRARY_SEARCH_handler env_no_md5 example_runtime (text_message "hello") None =
  (Ok tt,
   [CallComposeState (text_message "hello");
    CallGenerateObject SEARCH_TEMPLATE LARGE;
    LogError [LStr "Library search error:";
              LErr (Error "No search term found in response")];
    Callback "Sorry, I'm having trouble with the search: No search term found in response"]).
Proof. reflexivity. Qed.

Example api_failure_example :
  callbacks
    (trace (LIBRARY_DOWNLOAD_handler
              (example_env (Some "key") example_extracted (failure 429 "{}") (Ok (JObj [])))
              example_runtime (text_message example_download_text) None)) =
  ["Sorry, I'm having trouble getting the download links: "
   ++ "API request failed with status 429: {}"].
Proof. reflexivity. Qed.

(** * Further properties of the code *)

Arguments absent_or_empty : simpl never.
Arguments map_join : simpl never.

(** A trace without its last event. *)
Ltac all_but_last t :=
  lazymatch t with
  | [_] => constr:(@nil Event)
  | ?ev :: ?t' => let p := all_but_last t' in constr:(ev :: p)
  end.

Ltac unfold_search :=
  unfold LIBRARY_SEARCH_handler, LIBRARY_SEARCH_try, LIBRARY_SEARCH_respond,
    parse_response, check_ok, refresh_state, call_generateObject, call_fetch,
    elizaLogger_log, elizaLogger_error, callback, trace, completion.

Ltac unfold_download :=
  unfold LIBRARY_DOWNLOAD_handler, LIBRARY_DOWNLOAD_try, LIBRARY_DOWNLOAD_respond,
    extract_md5, parse_response, check_ok, refresh_state, call_generateObject,
    call_fetch, elizaLogger_log, elizaLogger_error, callback, trace, completion.

(** The actions of the plugin are the two of this module. *)
Ltac each_action H :=
  cbn [Plugin.actions libraryPlugin] in H;
  destruct H as [<-|[<-|[]]]; cbn [Action.handler LIBRARY_SEARCH LIBRARY_DOWNLOAD].

(** X1: in every run the search handler hands exactly one text to the
    callback: the configuration error, the result list, the no-results
    message or the apology. *)
Theorem search_replies_exactly_once
        (env : Environment) (runtime : IAgentRuntime) (message : Memory)
        (state : option AgentState) :
  List.length (callbacks (trace (LIBRARY_SEARCH_handler env runtime message state))) = 1.
Proof. unfold_search. run; reflexivity. Qed.

(** X2: in every run the download handler hands one or two texts to the
    callback, and only one when it did not call the extractor. *)
Theorem download_replies_once_or_twice
        (env : Environment) (runtime : IAgentRuntime) (message : Memory)
        (state : option AgentState) :
  1 <= List.length (callbacks (trace (LIBRARY_DOWNLOAD_handler env runtime message state)))
    <= 2 /\
  (extractor_calls (trace (LIBRARY_DOWNLOAD_handler env runtime message state)) = 0 ->
   List.length (callbacks (trace (LIBRARY_DOWNLOAD_handler env runtime message state))) = 1).
Proof.
  unfold_download. run.
  all: split; [vm_compute; lia | vm_compute; intros H; first [reflexivity | discriminate H]].
Qed.

(** X3: every run of an action of the plugin completes normally and ends with
    a text handed to the callback: nothing is logged, fetched or extracted
    after the last reply. *)
Theorem every_run_ends_with_a_reply
        (env : Environment) (action : Action.t) (runtime : IAgentRuntime)
        (message : Memory) (state : option AgentState) :
  In action (Plugin.actions (libraryPlugin env)) ->
  completion (Action.handler action runtime message state) = Ok tt /\
  exists pre reply,
    trace (Action.handler action runtime message state) = (pre ++ [Callback reply])%list.
Proof.
  intros Hin. each_action Hin.
  - unfold_search. run.
    all: split; [reflexivity|].
    all: match goal with
         | |- exists pre reply, ?t = _ =>
             let p := all_but_last t in exists p; eexists; reflexivity
         end.
  - unfold_download. run.
    all: split; [reflexivity|].
    all: match goal with
         | |- exists pre reply, ?t = _ =>
             let p := all_but_last t in exists p; eexists; reflexivity
         end.
Qed.

(** X4: a run of an action of the plugin makes at most one network call and
    at most one extractor call: nothing is retried. *)
Theorem one_call_at_most
        (env : Environment) (action : Action.t) (runtime : IAgentRuntime)
        (message : Memory) (state : option AgentState) :
  In action (Plugin.actions (libraryPlugin env)) ->
  network_calls (trace (Action.handler action runtime message state)) <= 1 /\
  extractor_calls (trace (Action.handler action runtime message state)) <= 1.
Proof.
  intros Hin. each_action Hin.
  - unfold_search. run. all: split; vm_compute; lia.
  - unfold_download. run. all: split; vm_compute; lia.
Qed.

(** X5: whatever request an action of the plugin sends goes to the configured
    host over https, with method GET and the two headers that carry the host
    and the configured key. *)
Theorem requests_go_to_the_host_with_the_key
        (env : Environment) (action : Action.t) (runtime : IAgentRuntime)
        (message : Memory) (state : option AgentState)
        (url : string) (init : RequestInit) :
  In action (Plugin.actions (libraryPlugin env)) ->
  In (CallFetch url init) (trace (Action.handler action runtime message state)) ->
  exists key rest,
    api_key env = Some key /\
    url = "https://annas-archive-api.p.rapidapi.com/" ++ rest /\
    method init = "GET" /\
    headers init = [("x-rapidapi-host", "annas-archive-api.p.rapidapi.com");
                    ("x-rapidapi-key", key)].
Proof.
  intros Haction Hin. each_action Haction.
  - apply search_handler_fetch in Hin. revert Hin.
    unfold LIBRARY_SEARCH_try, refresh_state, call_generateObject, call_fetch, trace.
    run; intros Hin; in_trace Hin; respond_facts.
    all: try (apply network_calls_In in Hin; tauto).
    all: injection Hin as <- <-.
    all: eexists; eexists; split; [reflexivity | split; [|split]]; reflexivity.
  - apply download_handler_fetch in Hin. revert Hin.
    unfold LIBRARY_DOWNLOAD_try, extract_md5, refresh_state, call_generateObject,
      call_fetch, trace.
    run; intros Hin; in_trace Hin; respond_facts.
    all: try (apply network_calls_In in Hin; tauto).
    all: injection Hin as <- <-.
    all: eexists; eexists; split; [reflexivity | split; [|split]]; reflexivity.
Qed.

(** X6: the search handler only sends a request after the extractor returned
    an object with a truthy [searchTerm]; the request is the search URL of
    that term, printed as it is, and the extractor was called exactly once. *)
Theorem search_request_comes_from_the_extractor
        (env : Environment) (runtime : IAgentRuntime) (message : Memory)
        (state : option AgentState) (url : string) (init : RequestInit) :
  In (CallFetch url init) (trace (LIBRARY_SEARCH_handler env runtime message state)) ->
  extractor_calls (trace (LIBRARY_SEARCH_handler env runtime message state)) = 1 /\
  exists ctx extracted term q,
    In (CallGenerateObject ctx LARGE)
       (trace (LIBRARY_SEARCH_handler env runtime message state)) /\
    generateObjectDeprecated env runtime ctx LARGE = Ok extracted /\
    opt_get extracted "searchTerm" = Ok term /\ truthy term = true /\
    to_string term = Ok q /\ url = search_url q.
Proof.
  intros Hin. revert Hin.
  unfold LIBRARY_SEARCH_handler, LIBRARY_SEARCH_try, refresh_state,
    call_generateObject, call_fetch, elizaLogger_log, elizaLogger_error, callback,
    trace, completion.
  run; intros Hin; in_trace Hin; respond_facts.
  all: try (apply network_calls_In in Hin; tauto).
  all: injection Hin as <- <-.
  all: merge_facts.
  all: split; [count_extractor|].
  all: do 4 eexists; split; [|split; [eassumption | split; [eassumption | split;
         [eassumption | split; [eassumption | reflexivity]]]]].
  all: simpl; auto.
Qed.

(** X7: an empty [RAPID_API_KEY] counts as no key: either handler answers
    with the configuration error and does nothing else. *)
Theorem empty_key_counts_as_unset
        (env : Environment) (runtime : IAgentRuntime) (message : Memory)
        (state : option AgentState) :
  RAPID_API_KEY env = Some EmptyString ->
  LIBRARY_SEARCH_handler env runtime message state =
    (Ok tt, [Callback "Error: RAPID_API_KEY is not configured"]) /\
  LIBRARY_DOWNLOAD_handler env runtime message state =
    (Ok tt, [Callback "Error: RAPID_API_KEY is not configured"]).
Proof.
  intros Hkey.
  unfold LIBRARY_SEARCH_handler, LIBRARY_SEARCH_try, LIBRARY_DOWNLOAD_handler,
    LIBRARY_DOWNLOAD_try, api_key.
  rewrite Hkey. split; reflexivity.
Qed.

(** X8: a response whose body is JSON but whose status is a failure is
    reported by either handler as an API error: the parsed body is logged and
    the reply names the status and the body, whatever the body holds. *)
Theorem failure_status_is_reported
        (env : Environment) (runtime : IAgentRuntime) (message : Memory)
        (state : option AgentState) (url : string) (init : RequestInit)
        (resp : Response) (txt : string) (data : JsValue) :
  fetch env url init = Ok resp -> ok resp = false -> body resp = Ok txt ->
  JSON_parse env txt = Ok data ->
  (In (CallFetch url init) (trace (LIBRARY_SEARCH_handler env runtime message state)) ->
   exists pre,
     callbacks pre = [] /\
     trace (LIBRARY_SEARCH_handler env runtime message state) =
     (pre ++ [CallFetch url init;
              LogError [LStr "API Error Response:"; LVal data];
              LogError [LStr "Library search error:";
                        LErr (Error ("API request failed with status "
                                     ++ string_of_Z (status resp) ++ ": "
                                     ++ JSON_stringify env data))];
              Callback ("Sorry, I'm having trouble with the search: "
                        ++ "API request failed with status "
                        ++ string_of_Z (status resp) ++ ": "
                        ++ JSON_stringify env data)])%list) /\
  (In (CallFetch url init) (trace (LIBRARY_DOWNLOAD_handler env runtime message state)) ->
   exists pre,
     network_calls pre = 0 /\
     trace (LIBRARY_DOWNLOAD_handler env runtime message state) =
     (pre ++ [CallFetch url init;
              LogError [LStr "API Error Response:"; LVal data];
              LogError [LStr "Library download error:";
                        LErr (Error ("API request failed with status "
                                     ++ string_of_Z (status resp) ++ ": "
                                     ++ JSON_stringify env data))];
              Callback ("Sorry, I'm having trouble getting the download links: "
                        ++ "API request failed with status "
                        ++ string_of_Z (status resp) ++ ": "
                        ++ JSON_stringify env data)])%list).
Proof.
  intros Hf Hok Hb Hp. split; intros Hin.
  - apply search_handler_fetch in Hin.
    destruct (search_try_fetch _ _ _ _ _ _ _ Hin Hf) as (pre & Hn & Hcb & Heq).
    rewrite (search_respond_api_error _ _ _ _ Hb Hp Hok) in Heq.
    unfold LIBRARY_SEARCH_handler. rewrite Heq.
    exists pre. split; [assumption|]. cbn. now rewrite <- app_assoc.
  - apply download_handler_fetch in Hin.
    destruct (download_try_fetch _ _ _ _ _ _ _ Hin Hf) as (pre & Hn & Heq).
    rewrite (download_respond_api_error _ _ _ _ Hb Hp Hok) in Heq.
    unfold LIBRARY_DOWNLOAD_handler. rewrite Heq.
    exists pre. split; [assumption|]. cbn. now rewrite <- app_assoc.
Qed.

(** X9: when the extractor returns an object without a truthy [searchTerm],
    the search fails before any network call and the reply says that no
    search term was found. *)
Theorem missing_search_term_stops_the_search
        (env : Environment) (runtime : IAgentRuntime) (message : Memory)
        (state : option AgentState) (ctx : string) (mc : ModelClass)
        (extracted found : JsValue) :
  In (CallGenerateObject ctx mc)
     (trace (LIBRARY_SEARCH_handler env runtime message state)) ->
  generateObjectDeprecated env runtime ctx mc = Ok extracted ->
  opt_get extracted "searchTerm" = Ok found -> truthy found = false ->
  completion (LIBRARY_SEARCH_try env runtime message state) =
    Throw (Error "No search term found in response") /\
  network_calls (trace (LIBRARY_SEARCH_handler env runtime message state)) = 0 /\
  callbacks (trace (LIBRARY_SEARCH_handler env runtime message state)) =
    ["Sorry, I'm having trouble with the search: No search term found in response"].
Proof.
  intros Hin Hgen Hget Hfalsy. revert Hin.
  unfold LIBRARY_SEARCH_handler, LIBRARY_SEARCH_try, refresh_state,
    call_generateObject, call_fetch, elizaLogger_error, elizaLogger_log, callback,
    trace, completion.
  run; intros Hin; in_trace Hin; respond_facts.
  all: try (apply extractor_calls_In in Hin; tauto).
  all: injection Hin as -> <-.
  all: merge_facts.
  all: repeat split; reflexivity.
Qed.

Lemma download_respond_empty (env : Environment) (resp : Response) (txt : string)
      (links : JsValue) :
  body resp = Ok txt -> JSON_parse env txt = Ok links -> ok resp = true ->
  absent_or_empty links = Ok true ->
  LIBRARY_DOWNLOAD_respond env resp =
  (Ok tt, [Callback "No download links found for this book."]).
Proof.
  intros Hb Hp Hok Hnone.
  unfold LIBRARY_DOWNLOAD_respond.
  rewrite (bind_lift_Ok _ _ _ Hb), (parse_response_Ok _ _ _ Hp), bind_ret.
  rewrite (check_ok_true _ _ _ Hok), bind_ret.
  rewrite (bind_lift_Ok _ _ _ Hnone). reflexivity.
Qed.

(** X10: a successful download response whose JSON is [null] or an empty
    array is no failure: the body of the [try] completes normally and the
    last reply says that no download links were found. *)
Theorem empty_link_list_is_no_error
        (env : Environment) (runtime : IAgentRuntime) (message : Memory)
        (state : option AgentState) (url : string) (init : RequestInit)
        (resp : Response) (txt : string) (links : JsValue) :
  In (CallFetch url init) (trace (LIBRARY_DOWNLOAD_handler env runtime message state)) ->
  fetch env url init = Ok resp -> ok resp = true -> body resp = Ok txt ->
  JSON_parse env txt = Ok links -> links = JNull \/ links = JArr [] ->
  completion (LIBRARY_DOWNLOAD_try env runtime message state) = Ok tt /\
  exists pre,
    trace (LIBRARY_DOWNLOAD_handler env runtime message state) =
    (pre ++ [CallFetch url init;
             Callback "No download links found for this book."])%list.
Proof.
  intros Hin Hf Hok Hb Hp Hlinks.
  apply download_handler_fetch in Hin.
  destruct (download_try_fetch _ _ _ _ _ _ _ Hin Hf) as (pre & Hn & Heq).
  assert (absent_or_empty links = Ok true) as Hnone
    by (destruct Hlinks as [->| ->]; reflexivity).
  rewrite (download_respond_empty _ _ _ _ Hb Hp Hok Hnone) in Heq.
  unfold LIBRARY_DOWNLOAD_handler. rewrite Heq. split; [reflexivity|].
  exists pre. reflexivity.
Qed.

(** ** The search URL *)

Lemma form_encode_cons (c : ascii) (s : string) :
  form_encode (String c s) = form_encode (String c EmptyString) ++ form_encode s.
Proof.
  cbn [form_encode]. now rewrite append_nil_r.
Qed.

(** Every byte, on its own. *)
Ltac each_byte c :=
  destruct c as [[] [] [] [] [] [] [] []].

Lemma form_encode_char_safe (c : ascii) :
  all_chars form_char (form_encode (String c EmptyString)) = true.
Proof. each_byte c; reflexivity. Qed.

Lemma form_encode_safe (s : string) : all_chars form_char (form_encode s) = true.
Proof.
  induction s as [|c s IH]; [reflexivity|].
  now rewrite form_encode_cons, all_chars_app, form_encode_char_safe, IH.
Qed.

(** X11: the search URL is the endpoint followed by the three parameters
    [q], [limit=10] and [sort=mostRelevant] in that order, and the encoded
    term is made of letters, digits and [* - . _ + %] only: whatever the
    term holds, it adds no parameter and does not end the query. *)
Theorem search_url_shape (q : string) :
  search_url q =
    "https://annas-archive-api.p.rapidapi.com/search?q=" ++ form_encode q
    ++ "&limit=10&sort=mostRelevant" /\
  all_chars form_char (form_encode q) = true /\
  forall c, form_char c = true ->
            c <> "&"%char /\ c <> "="%char /\ c <> "#"%char /\ c <> "?"%char
            /\ c <> " "%char /\ c <> "/"%char.
Proof.
  split; [reflexivity|]. split; [apply form_encode_safe|].
  intros c Hc. repeat split; intros ->; discriminate Hc.
Qed.

(** ** Failures before and around the network call *)

(** X13: a message without content makes either handler fail right after the
    state refresh: no extractor call, no network call, and one reply, the
    apology.  The download action's [validate] accepts such a message. *)
Theorem message_without_content_is_reported
        (env : Environment) (runtime : IAgentRuntime) (message : Memory)
        (state : option AgentState) (key : string) (state' : AgentState) :
  content message = None -> api_key env = Some key ->
  completion (refresh_state runtime message state) = Ok state' ->
  LIBRARY_DOWNLOAD_validate runtime message = true /\
  LIBRARY_SEARCH_validate runtime message = false /\
  (exists m,
      trace (LIBRARY_SEARCH_handler env runtime message state) =
      (trace (refresh_state runtime message state)
       ++ [LogError [LStr "Library search error:"; LErr (TypeError m)];
           Callback ("Sorry, I'm having trouble with the search: " ++ m)])%list) /\
  (exists m,
      trace (LIBRARY_DOWNLOAD_handler env runtime message state) =
      (trace (refresh_state runtime message state)
       ++ [LogError [LStr "Library download error:"; LErr (TypeError m)];
           Callback ("Sorry, I'm having trouble getting the download links: "
                     ++ m)])%list).
Proof.
  intros Hc Hk Hs.
  assert (exists m, message_content_text message = Throw (TypeError m)) as [m Hm]
    by (unfold message_content_text; rewrite Hc; eauto).
  assert (exists m, direct_hash message = Throw (TypeError m)) as [m' Hm']
    by (unfold direct_hash; rewrite Hc; eauto).
  split; [reflexivity|].
  split; [unfold LIBRARY_SEARCH_validate; now rewrite Hc|].
  unfold refresh_state, completion in Hs.
  destruct state as [s0|]; cbn in Hs;
    [ destruct (updateRecentMessageState runtime s0) eqn:Hr
    | destruct (composeState runtime message) eqn:Hr ];
    cbn in Hs; try discriminate Hs; injection Hs as ->.
  all: split; [exists m | exists m'].
  all: unfold LIBRARY_SEARCH_handler, LIBRARY_SEARCH_try, LIBRARY_DOWNLOAD_handler,
         LIBRARY_DOWNLOAD_try, refresh_state, elizaLogger_error, callback, trace.
  all: run_known; reflexivity.
Qed.

(** X14: when the state refresh throws, either handler stops there: the
    error is logged and its message is handed to the callback in the
    apology; the extractor and the network are not called. *)
Theorem state_refresh_failure_is_reported
        (env : Environment) (runtime : IAgentRuntime) (message : Memory)
        (state : option AgentState) (key : string) (e : JsError) :
  api_key env = Some key ->
  completion (refresh_state runtime message state) = Throw e ->
  LIBRARY_SEARCH_handler env runtime message state =
    (Ok tt,
     (trace (refresh_state runtime message state)
      ++ [LogError [LStr "Library search error:"; LErr e];
          Callback ("Sorry, I'm having trouble with the search: "
                    ++ JsError_message e)])%list) /\
  LIBRARY_DOWNLOAD_handler env runtime message state =
    (Ok tt,
     (trace (refresh_state runtime message state)
      ++ [LogError [LStr "Library download error:"; LErr e];
          Callback ("Sorry, I'm having trouble getting the download links: "
                    ++ JsError_message e)])%list).
Proof.
  intros Hk Hs.
  unfold refresh_state, completion in Hs.
  destruct state as [s0|]; cbn in Hs;
    [ destruct (updateRecentMessageState runtime s0) eqn:Hr
    | destruct (composeState runtime message) eqn:Hr ];
    cbn in Hs; try discriminate Hs; injection Hs as ->.
  all: split.
  all: unfold LIBRARY_SEARCH_handler, LIBRARY_SEARCH_try, LIBRARY_DOWNLOAD_handler,
         LIBRARY_DOWNLOAD_try, refresh_state, elizaLogger_error, callback, trace.
  all: run_known; reflexivity.
Qed.

Lemma search_try_fetch_fails
      (env : Environment) (runtime : IAgentRuntime) (message : Memory)
      (state : option AgentState) (url : string) (init : RequestInit) (e : JsError) :
  In (CallFetch url init) (trace (LIBRARY_SEARCH_try env runtime message state)) ->
  fetch env url init = Throw e ->
  exists pre,
    network_calls pre = 0 /\ callbacks pre = [] /\
    LIBRARY_SEARCH_try env runtime message state =
    (Throw e, (pre ++ [CallFetch url init])%list).
Proof.
  intros Hin Hf. revert Hin.
  unfold LIBRARY_SEARCH_try, refresh_state, call_generateObject, call_fetch, trace.
  run; intros Hin; in_trace Hin; respond_facts.
  all: try (apply network_calls_In in Hin; tauto).
  all: injection Hin as <- <-.
  all: try congruence.
  all: match goal with
       | Hr : fetch _ _ _ = Throw ?e' |- exists pre, _ /\ _ /\ (_, ?t) = _ =>
           let p := all_but_last t in
           exists p; rewrite Hf in Hr; injection Hr as <-; repeat split
       end.
Qed.

Lemma download_try_fetch_fails
      (env : Environment) (runtime : IAgentRuntime) (message : Memory)
      (state : option AgentState) (url : string) (init : RequestInit) (e : JsError) :
  In (CallFetch url init) (trace (LIBRARY_DOWNLOAD_try env runtime message state)) ->
  fetch env url init = Throw e ->
  exists pre,
    network_calls pre = 0 /\
    LIBRARY_DOWNLOAD_try env runtime message state =
    (Throw e, (pre ++ [CallFetch url init])%list).
Proof.
  intros Hin Hf. revert Hin.
  unfold LIBRARY_DOWNLOAD_try, extract_md5, refresh_state, call_generateObject,
    call_fetch, trace.
  run; intros Hin; in_trace Hin; respond_facts.
  all: try (apply network_calls_In in Hin; tauto).
  all: injection Hin as <- <-.
  all: try congruence.
  all: match goal with
       | Hr : fetch _ _ _ = Throw ?e' |- exists pre, _ /\ (_, ?t) = _ =>
           let p := all_but_last t in
           exists p; rewrite Hf in Hr; injection Hr as <-; repeat split
       end.
Qed.

Lemma search_respond_unreadable (env : Environment) (resp : Response) (e : JsError) :
  body resp = Throw e -> LIBRARY_SEARCH_respond env resp = (Throw e, []).
Proof. intros Hb. unfold LIBRARY_SEARCH_respond. now rewrite Hb. Qed.

Lemma download_respond_unreadable (env : Environment) (resp : Response) (e : JsError) :
  body resp = Throw e -> LIBRARY_DOWNLOAD_respond env resp = (Throw e, []).
Proof. intros Hb. unfold LIBRARY_DOWNLOAD_respond. now rewrite Hb. Qed.

(** X15: when [fetch] rejects, or the body of the response cannot be read,
    either handler reports that error: after the network call the trace
    holds the log entry of the [catch] clause and the apology with the
    message of the error, and nothing else. *)
Theorem network_failure_is_reported
        (env : Environment) (runtime : IAgentRuntime) (message : Memory)
        (state : option AgentState) (url : string) (init : RequestInit)
        (e : JsError) :
  fetch env url init = Throw e \/
  (exists resp, fetch env url init = Ok resp /\ body resp = Throw e) ->
  (In (CallFetch url init) (trace (LIBRARY_SEARCH_handler env runtime message state)) ->
   exists pre,
     network_calls pre = 0 /\ callbacks pre = [] /\
     trace (LIBRARY_SEARCH_handler env runtime message state) =
     (pre ++ [CallFetch url init;
              LogError [LStr "Library search error:"; LErr e];
              Callback ("Sorry, I'm having trouble with the search: "
                        ++ JsError_message e)])%list) /\
  (In (CallFetch url init) (trace (LIBRARY_DOWNLOAD_handler env runtime message state)) ->
   exists pre,
     network_calls pre = 0 /\
     trace (LIBRARY_DOWNLOAD_handler env runtime message state) =
     (pre ++ [CallFetch url init;
              LogError [LStr "Library download error:"; LErr e];
              Callback ("Sorry, I'm having trouble getting the download links: "
                        ++ JsError_message e)])%list).
Proof.
  intros Hfail. split; intros Hin.
  - apply search_handler_fetch in Hin.
    assert (exists pre, network_calls pre = 0 /\ callbacks pre = [] /\
                        LIBRARY_SEARCH_try env runtime message state =
                        (Throw e, (pre ++ [CallFetch url init])%list))
      as (pre & Hn & Hcb & Heq).
    { destruct Hfail as [Hf|(resp & Hf & Hb)].
      - exact (search_try_fetch_fails _ _ _ _ _ _ _ Hin Hf).
      - destruct (search_try_fetch _ _ _ _ _ _ _ Hin Hf) as (pre & Hn & Hcb & Heq).
        rewrite (search_respond_unreadable _ _ _ Hb) in Heq. now exists pre. }
    unfold LIBRARY_SEARCH_handler. rewrite Heq.
    exists pre. repeat split; try assumption. cbn. now rewrite <- app_assoc.
  - apply download_handler_fetch in Hin.
    assert (exists pre, network_calls pre = 0 /\
                        LIBRARY_DOWNLOAD_try env runtime message state =
                        (Throw e, (pre ++ [CallFetch url init])%list))
      as (pre & Hn & Heq).
    { destruct Hfail as [Hf|(resp & Hf & Hb)].
      - exact (download_try_fetch_fails _ _ _ _ _ _ _ Hin Hf).
      - destruct (download_try_fetch _ _ _ _ _ _ _ Hin Hf) as (pre & Hn & Heq).
        rewrite (download_respond_unreadable _ _ _ Hb) in Heq. now exists pre. }
    unfold LIBRARY_DOWNLOAD_handler. rewrite Heq.
    exists pre. repeat split; try assumption. cbn. now rewrite <- app_assoc.
Qed.

(** ** Responses of an unexpected shape *)

Lemma map_from_null_book (items : list JsValue) (i : nat) :
  In JNull items -> exists e, map_from format_book i items = Throw e.
Proof.
  revert i. induction items as [|x items IH]; intros i Hin; [destruct Hin|].
  cbn [map_from]. destruct (format_book x i) as [s|e] eqn:Hx; [|now exists e].
  destruct Hin as [->|Hin]; [discriminate Hx|].
  destruct (IH (S i) Hin) as [e ->]. now exists e.
Qed.

(** X16: when one element of [books] is [null], the search renders no list
    at all: the body of the [try] throws, and the one reply is the apology
    with the message of the error. *)
Theorem null_book_fails_the_whole_list
        (env : Environment) (runtime : IAgentRuntime) (message : Memory)
        (state : option AgentState) (url : string) (init : RequestInit)
        (resp : Response) (txt : string) (data : JsValue) (items : list JsValue) :
  In (CallFetch url init) (trace (LIBRARY_SEARCH_handler env runtime message state)) ->
  fetch env url init = Ok resp -> ok resp = true -> body resp = Ok txt ->
  JSON_parse env txt = Ok data ->
  get_prop data "books" = Ok (JArr items) -> In JNull items ->
  exists e,
    completion (LIBRARY_SEARCH_try env runtime message state) = Throw e /\
    callbacks (trace (LIBRARY_SEARCH_handler env runtime message state)) =
      ["Sorry, I'm having trouble with the search: " ++ JsError_message e].
Proof.
  intros Hin Hf Hok Hb Hp Hbooks Hnull.
  apply search_handler_fetch in Hin.
  destruct (search_try_fetch _ _ _ _ _ _ _ Hin Hf) as (pre & Hn & Hcb & Heq).
  destruct (map_from_null_book items 0 Hnull) as [e He].
  assert (items <> []) as Hne by (intros ->; destruct Hnull).
  assert (map_join (not_a_function env "data.books.map") format_book (nl ++ nl)
                   (JArr items) = Throw e) as Hjoin
    by (unfold map_join, Array_map; now rewrite He).
  assert (LIBRARY_SEARCH_respond env resp =
          (Throw e, [Log [LStr "Search results:"; LVal data]])) as Hresp.
  { unfold LIBRARY_SEARCH_respond.
    rewrite (bind_lift_Ok _ _ _ Hb), (parse_response_Ok _ _ _ Hp), bind_ret.
    rewrite (check_ok_true _ _ _ Hok), bind_ret.
    unfold elizaLogger_log. rewrite bind_emit.
    rewrite (bind_lift_Ok _ _ _ Hbooks).
    rewrite (bind_lift_Ok _ _ _ (absent_or_empty_items _ Hne)).
    rewrite (bind_lift_Throw _ _ _ Hjoin). reflexivity. }
  rewrite Hresp in Heq. exists e.
  unfold LIBRARY_SEARCH_handler. rewrite Heq. split; [reflexivity|].
  cbn. now rewrite !callbacks_app, Hcb.
Qed.

Lemma nonempty_string_not_empty (s : string) :
  s <> EmptyString -> absent_or_empty (JStr s) = Ok false.
Proof. destruct s; [contradiction | reflexivity]. Qed.

Lemma object_without_length_not_empty (fields : list (string * JsValue)) :
  lookup "length" fields = None -> absent_or_empty (JObj fields) = Ok false.
Proof.
  intros H. unfold absent_or_empty, get_prop. cbn [truthy negb]. now rewrite H.
Qed.

(** X17: a successful download response whose JSON is an object without a
    [length], or a non-empty string, is not a list of links: the handler
    fails on [links.map] with the engine's [TypeError] and the reply after
    the network call is the apology with the text of that error. *)
Theorem links_must_be_an_array
        (env : Environment) (runtime : IAgentRuntime) (message : Memory)
        (state : option AgentState) (url : string) (init : RequestInit)
        (resp : Response) (txt : string) (links : JsValue) :
  In (CallFetch url init) (trace (LIBRARY_DOWNLOAD_handler env runtime message state)) ->
  fetch env url init = Ok resp -> ok resp = true -> body resp = Ok txt ->
  JSON_parse env txt = Ok links ->
  (exists fields, links = JObj fields /\ lookup "length" fields = None) \/
  (exists s, links = JStr s /\ s <> EmptyString) ->
  completion (LIBRARY_DOWNLOAD_try env runtime message state) =
    Throw (TypeError (not_a_function env "links.map")) /\
  exists pre,
    network_calls pre = 0 /\
    trace (LIBRARY_DOWNLOAD_handler env runtime message state) =
    (pre ++ [CallFetch url init;
             LogError [LStr "Library download error:";
                       LErr (TypeError (not_a_function env "links.map"))];
             Callback ("Sorry, I'm having trouble getting the download links: "
                       ++ not_a_function env "links.map")])%list.
Proof.
  intros Hin Hf Hok Hb Hp Hshape.
  apply download_handler_fetch in Hin.
  destruct (download_try_fetch _ _ _ _ _ _ _ Hin Hf) as (pre & Hn & Heq).
  assert (absent_or_empty links = Ok false /\
          map_join (not_a_function env "links.map") format_link nl links =
          Throw (TypeError (not_a_function env "links.map"))) as [Hne Hjoin].
  { destruct Hshape as [(fields & -> & Hl)|(s & -> & Hs)].
    - split; [now apply object_without_length_not_empty | reflexivity].
    - split; [now apply nonempty_string_not_empty | reflexivity]. }
  assert (LIBRARY_DOWNLOAD_respond env resp =
          (Throw (TypeError (not_a_function env "links.map")), [])) as Hresp.
  { unfold LIBRARY_DOWNLOAD_respond.
    rewrite (bind_lift_Ok _ _ _ Hb), (parse_response_Ok _ _ _ Hp), bind_ret.
    rewrite (check_ok_true _ _ _ Hok), bind_ret.
    rewrite (bind_lift_Ok _ _ _ Hne).
    rewrite (bind_lift_Throw _ _ _ Hjoin). reflexivity. }
  rewrite Hresp in Heq.
  unfold LIBRARY_DOWNLOAD_handler. rewrite Heq. split; [reflexivity|].
  exists pre. split; [assumption|]. cbn. now rewrite <- app_assoc.
Qed.

(** ** What the extractor is asked *)

(** X18: [{ ...state, query: v }] reads back [v] under [query], leaves every
    other field of the state as it was, and keeps the order of the keys,
    with [query] at the end when the state had none. *)
Theorem set_field_reads_back (k : string) (v : JsValue) (o : AgentState) :
  lookup k (set_field k v o) = Some v /\
  (forall k', k' <> k -> lookup k' (set_field k v o) = lookup k' o) /\
  map fst (set_field k v o) =
    match lookup k o with
    | Some _ => map fst o
    | None => (map fst o ++ [k])%list
    end.
Proof.
  assert (forall k0 v0 o', set_field k v ((k0, v0) :: o') =
                           if k0 =? k then (k0, v) :: o'
                           else (k0, v0) :: set_field k v o') as Hcons
    by reflexivity.
  induction o as [|[k0 v0] o (IH1 & IH2 & IH3)].
  - change (set_field k v []) with [(k, v)].
    cbn. rewrite String.eqb_refl. repeat split.
    intros k' Hk'. apply String.eqb_neq in Hk'.
    now rewrite String.eqb_sym, Hk'.
  - rewrite Hcons. cbn [lookup]. destruct (k0 =? k) eqn:Hk.
    + cbn [lookup map fst]. rewrite Hk. repeat split.
      intros k' Hk'. apply String.eqb_eq in Hk. subst k0.
      apply String.eqb_neq in Hk'. now rewrite String.eqb_sym, Hk'.
    + cbn [lookup map fst]. rewrite Hk. split; [exact IH1|]. split.
      * intros k' Hk'. destruct (k0 =? k'); [reflexivity | now apply IH2].
      * rewrite IH3. now destruct (lookup k o).
Qed.

Lemma direct_hash_falsy (message : Memory) (v : JsValue) :
  direct_hash message = Ok v -> truthy v = false -> v = JUndefined.
Proof.
  unfold direct_hash, match_hash.
  destruct (content message) as [c|]; [|discriminate].
  destruct (text c) as [t|]; [|discriminate].
  destruct (find_hex 32 t) as [h|] eqn:Hh; intros [= <-] Hv; [|reflexivity].
  rewrite (hash_truthy _ _ _ Hh) in Hv. discriminate.
Qed.

(** X19: the extractor call of the search handler is made with the large
    model and with the context composed from the search template and the
    refreshed state, in which [query] is the text of the message. *)
Theorem search_extraction_request
        (env : Environment) (runtime : IAgentRuntime) (message : Memory)
        (state : option AgentState) (ctx : string) (mc : ModelClass) :
  In (CallGenerateObject ctx mc)
     (trace (LIBRARY_SEARCH_handler env runtime message state)) ->
  mc = LARGE /\
  exists state' query,
    completion (refresh_state runtime message state) = Ok state' /\
    message_content_text message = Ok query /\
    composeContext env (set_field "query" query state') SEARCH_TEMPLATE = Ok ctx.
Proof.
  intros Hin. revert Hin.
  unfold LIBRARY_SEARCH_handler, LIBRARY_SEARCH_try, refresh_state,
    call_generateObject, call_fetch, elizaLogger_log, elizaLogger_error, callback,
    trace, completion.
  run; intros Hin; in_trace Hin; respond_facts.
  all: try (apply extractor_calls_In in Hin; tauto).
  all: injection Hin as <- <-.
  all: split; [reflexivity|]; do 2 eexists;
    split; [reflexivity | split; [reflexivity | eassumption]].
Qed.

(** X20: the extractor call of the download handler is made only when the
    text of the message holds no hash, with the large model and with the
    context composed from the download template and the refreshed state. *)
Theorem download_extraction_request
        (env : Environment) (runtime : IAgentRuntime) (message : Memory)
        (state : option AgentState) (ctx : string) (mc : ModelClass) :
  In (CallGenerateObject ctx mc)
     (trace (LIBRARY_DOWNLOAD_handler env runtime message state)) ->
  mc = LARGE /\
  direct_hash message = Ok JUndefined /\
  exists state',
    completion (refresh_state runtime message state) = Ok state' /\
    composeContext env state' DOWNLOAD_TEMPLATE = Ok ctx.
Proof.
  intros Hin. revert Hin.
  unfold LIBRARY_DOWNLOAD_handler, LIBRARY_DOWNLOAD_try, extract_md5, refresh_state,
    call_generateObject, call_fetch, elizaLogger_log, elizaLogger_error, callback,
    trace, completion.
  run; intros Hin; in_trace Hin; respond_facts.
  all: try (apply extractor_calls_In in Hin; tauto).
  all: injection Hin as <- <-.
  all: match goal with
       | Hd : direct_hash _ = Ok ?v, Hv : truthy ?v = false |- _ =>
           pose proof (direct_hash_falsy _ _ Hd Hv); subst v
       end.
  all: split; [reflexivity|]; split; [reflexivity|]; eexists; split;
    [reflexivity | eassumption].
Qed.

(** X21: a message that the search action's [validate] accepts has a
    non-empty text, and with the key configured, the state refreshed and the
    context composed the handler does reach the extractor, once. *)
Theorem validated_search_reaches_the_extractor
        (env : Environment) (runtime : IAgentRuntime) (message : Memory)
        (state : option AgentState) (key ctx : string) (state' : AgentState) :
  LIBRARY_SEARCH_validate runtime message = true ->
  api_key env = Some key ->
  completion (refresh_state runtime message state) = Ok state' ->
  exists t,
    message_content_text message = Ok (JStr t) /\ t <> EmptyString /\
    (composeContext env (set_field "query" (JStr t) state') SEARCH_TEMPLATE = Ok ctx ->
     extractor_calls (trace (LIBRARY_SEARCH_handler env runtime message state)) = 1 /\
     In (CallGenerateObject ctx LARGE)
        (trace (LIBRARY_SEARCH_handler env runtime message state))).
Proof.
  intros Hv Hk Hs.
  unfold LIBRARY_SEARCH_validate in Hv.
  destruct (content message) as [c|] eqn:Hc; [|discriminate].
  destruct (text c) as [t|] eqn:Ht; [|discriminate].
  exists t.
  assert (message_content_text message = Ok (JStr t)) as Hm
    by (unfold message_content_text; now rewrite Hc, Ht).
  split; [exact Hm|]. split.
  { intros ->. discriminate Hv. }
  intros Hctx.
  unfold refresh_state, completion in Hs.
  destruct state as [s0|]; cbn in Hs;
    [ destruct (updateRecentMessageState runtime s0) eqn:Hr
    | destruct (composeState runtime message) eqn:Hr ];
    cbn in Hs; try discriminate Hs; injection Hs as ->.
  all: unfold LIBRARY_SEARCH_handler, LIBRARY_SEARCH_try, refresh_state,
         call_generateObject, call_fetch, elizaLogger_log, elizaLogger_error, callback,
         trace, completion.
  all: run_known.
  all: split; [count_extractor | simpl; auto].
Qed.

(** ** Worked examples of the further properties *)

Ltac find_event := vm_compute; repeat (first [left; reflexivity | right]).

Lemma every_run_ends_with_a_reply_witness :
  completion (LIBRARY_DOWNLOAD_handler env_links example_runtime
                                       (text_message example_download_text) None) = Ok tt.
Proof.
  apply (every_run_ends_with_a_reply env_links (LIBRARY_DOWNLOAD env_links)
           example_runtime (text_message example_download_text) None).
  right. left. reflexivity.
Defined.

Lemma one_call_at_most_witness :
  network_calls (trace (LIBRARY_SEARCH_handler env_books example_runtime
                                               (text_message "find me a book on ML") None))
  <= 1.
Proof.
  apply (proj1 (one_call_at_most env_books (LIBRARY_SEARCH env_books)
                  example_runtime (text_message "find me a book on ML") None
                  (or_introl eq_refl))).
Defined.

Lemma requests_go_to_the_host_with_the_key_witness :
  exists key rest,
    api_key env_books = Some key /\
    search_url "machine learning" = "https://annas-archive-api.p.rapidapi.com/" ++ rest /\
    method (request_init "key") = "GET" /\
    headers (request_init "key") =
      [("x-rapidapi-host", "annas-archive-api.p.rapidapi.com"); ("x-rapidapi-key", key)].
Proof.
  apply (requests_go_to_the_host_with_the_key
           env_books (LIBRARY_SEARCH env_books) example_runtime
           (text_message "find me a book on ML") None
           (search_url "machine learning") (request_init "key")).
  - left. reflexivity.
  - find_event.
Defined.

Lemma search_request_comes_from_the_extractor_witness :
  extractor_calls (trace (LIBRARY_SEARCH_handler env_books example_runtime
                                                 (text_message "find me a book on ML") None))
  = 1.
Proof.
  apply (search_request_comes_from_the_extractor
           env_books example_runtime (text_message "find me a book on ML") None
           (search_url "machine learning") (request_init "key")).
  find_event.
Defined.

Lemma empty_key_counts_as_unset_witness :
  LIBRARY_SEARCH_handler env_empty_key example_runtime (text_message "machine learning") None
  = (Ok tt, [Callback "Error: RAPID_API_KEY is not configured"]).
Proof.
  apply (empty_key_counts_as_unset env_empty_key example_runtime
                                   (text_message "machine learning") None).
  reflexivity.
Defined.

Lemma failure_status_is_reported_witness :
  exists pre,
    network_calls pre = 0 /\
    trace (LIBRARY_DOWNLOAD_handler env_rate_limited example_runtime
                                    (text_message example_download_text) None) =
    (pre ++ [CallFetch (download_url example_hash) (request_init "key");
             LogError [LStr "API Error Response:"; LVal (JObj [])];
             LogError [LStr "Library download error:";
                       LErr (Error "API request failed with status 429: {}")];
             Callback ("Sorry, I'm having trouble getting the download links: "
                       ++ "API request failed with status 429: {}")])%list.
Proof.
  destruct (failure_status_is_reported
              env_rate_limited example_runtime (text_message example_download_text) None
              (download_url example_hash) (request_init "key")
              (failure 429 "{}") "{}" (JObj [])
              eq_refl eq_refl eq_refl eq_refl) as [_ Hdownload].
  apply Hdownload. find_event.
Defined.

Lemma missing_search_term_stops_the_search_witness :
  network_calls (trace (LIBRARY_SEARCH_handler env_no_md5 example_runtime
                                               (text_message "hello") None)) = 0.
Proof.
  apply (missing_search_term_stops_the_search
           env_no_md5 example_runtime (text_message "hello") None
           SEARCH_TEMPLATE LARGE (JObj [("title", JStr "Superintelligence")]) JUndefined).
  - find_event.
  - reflexivity.
  - reflexivity.
  - reflexivity.
Defined.

Lemma empty_link_list_is_no_error_witness :
  completion (LIBRARY_DOWNLOAD_try env_no_links example_runtime
                                   (text_message example_download_text) None) = Ok tt.
Proof.
  apply (empty_link_list_is_no_error
           env_no_links example_runtime (text_message example_download_text) None
           (download_url example_hash) (request_init "key")
           (success "[]") "[]" (JArr [])).
  - find_event.
  - reflexivity.
  - reflexivity.
  - reflexivity.
  - reflexivity.
  - right. reflexivity.
Defined.

Lemma message_without_content_is_reported_witness :
  LIBRARY_DOWNLOAD_validate example_runtime empty_message = true /\
  LIBRARY_SEARCH_validate example_runtime empty_message = false.
Proof.
  destruct (message_without_content_is_reported
              env_links example_runtime empty_message None "key" []
              eq_refl eq_refl eq_refl) as (Hd & Hs & _).
  split; assumption.
Defined.

Lemma state_refresh_failure_is_reported_witness :
  LIBRARY_SEARCH_handler env_books failing_runtime (text_message "machine learning") None =
  (Ok tt,
   [CallComposeState (text_message "machine learning");
    LogError [LStr "Library search error:"; LErr (Error "database is locked")];
    Callback "Sorry, I'm having trouble with the search: database is locked"]).
Proof.
  apply (state_refresh_failure_is_reported
           env_books failing_runtime (text_message "machine learning") None
           "key" (Error "database is locked")).
  - reflexivity.
  - reflexivity.
Defined.

Lemma network_failure_is_reported_witness :
  exists pre,
    network_calls pre = 0 /\
    trace (LIBRARY_DOWNLOAD_handler env_offline example_runtime
                                    (text_message example_download_text) None) =
    (pre ++ [CallFetch (download_url example_hash) (request_init "key");
             LogError [LStr "Library download error:"; LErr (TypeError "fetch failed")];
             Callback ("Sorry, I'm having trouble getting the download links: "
                       ++ "fetch failed")])%list.
Proof.
  destruct (network_failure_is_reported
              env_offline example_runtime (text_message example_download_text) None
              (download_url example_hash) (request_init "key")
              (TypeError "fetch failed") (or_introl eq_refl)) as [_ Hdownload].
  apply Hdownload. find_event.
Defined.

Lemma null_book_fails_the_whole_list_witness :
  exists e,
    completion (LIBRARY_SEARCH_try env_null_book example_runtime
                                   (text_message "find me a book on ML") None) = Throw e /\
    callbacks (trace (LIBRARY_SEARCH_handler env_null_book example_runtime
                                             (text_message "find me a book on ML") None)) =
      ["Sorry, I'm having trouble with the search: " ++ JsError_message e].
Proof.
  apply (null_book_fails_the_whole_list
           env_null_book example_runtime (text_message "find me a book on ML") None
           (search_url "machine learning") (request_init "key")
           (success "(a null book)") "(a null book)"
           (JObj [("total", JNum 1); ("books", JArr [JNull])]) [JNull]).
  - find_event.
  - reflexivity.
  - reflexivity.
  - reflexivity.
  - reflexivity.
  - reflexivity.
  - left. reflexivity.
Defined.

Lemma links_must_be_an_array_witness :
  completion (LIBRARY_DOWNLOAD_try env_error_object example_runtime
                                   (text_message example_download_text) None) =
  Throw (TypeError (not_a_function env_error_object "links.map")).
Proof.
  apply (links_must_be_an_array
           env_error_object example_runtime (text_message example_download_text) None
           (download_url example_hash) (request_init "key")
           (success "(an error object)") "(an error object)"
           (JObj [("message", JStr "Too many requests")])).
  - find_event.
  - reflexivity.
  - reflexivity.
  - reflexivity.
  - reflexivity.
  - left. exists [("message", JStr "Too many requests")]. split; reflexivity.
Defined.

Lemma search_extraction_request_witness :
  exists state' query,
    completion (refresh_state example_runtime (text_message "find me a book on ML") None)
    = Ok state' /\
    message_content_text (text_message "find me a book on ML") = Ok query /\
    composeContext env_books (set_field "query" query state') SEARCH_TEMPLATE
    = Ok SEARCH_TEMPLATE.
Proof.
  apply (search_extraction_request
           env_books example_runtime (text_message "find me a book on ML") None
           SEARCH_TEMPLATE LARGE).
  find_event.
Defined.

Lemma download_extraction_request_witness :
  direct_hash (text_message "download the bostrom book") = Ok JUndefined.
Proof.
  apply (download_extraction_request
           env_links example_runtime (text_message "download the bostrom book") None
           DOWNLOAD_TEMPLATE LARGE).
  find_event.
Defined.

Lemma validated_search_reaches_the_extractor_witness :
  exists t,
    message_content_text (text_message "find me a book on ML") = Ok (JStr t) /\
    t <> EmptyString /\
    (composeContext env_books (set_field "query" (JStr t) []) SEARCH_TEMPLATE
     = Ok SEARCH_TEMPLATE ->
     extractor_calls (trace (LIBRARY_SEARCH_handler env_books example_runtime
                               (text_message "find me a book on ML") None)) = 1 /\
     In (CallGenerateObject SEARCH_TEMPLATE LARGE)
        (trace (LIBRARY_SEARCH_handler env_books example_runtime
                  (text_message "find me a book on ML") None))).
Proof.
  apply (validated_search_reaches_the_extractor
           env_books example_runtime (text_message "find me a book on ML") None
           "key" SEARCH_TEMPLATE []).
  - reflexivity.
  - reflexivity.
  - reflexivity.
Defined.
